(** * log-bot: the web-app relay of [main.py]

    A shallow embedding of [main.py]: the envelope builder
    [format_payload], the forwarder [send_to_webhook] and the per-event
    handler [web_app_data], with the properties of the relay stated over
    them.

    Python values are a small inductive type; a [dict] is an association
    list in insertion order (the order [json.dumps] prints).  The calls the
    script makes to the outside ([json.loads], [requests.post], the Telegram
    replies, the logger) are effects: every run returns its result together
    with the list of effects it issued, in order, and reads the outcome of
    each outside call from a [World]. *)

From Stdlib Require Import ZArith List String Ascii Bool Lia DecimalString.
Import ListNotations.
Set Warnings "-register-all".
Local Open Scope string_scope.
Local Open Scope Z_scope.

(* ================================================================== *)
(** * Python values *)

(** The values the script handles.  A [str] is a [string] whose characters
    are code points below 256.  A [float] is carried by its [repr] (the
    payload may hold one; the script never computes with it). *)
Inductive pyval : Type :=
| PNone
| PBool (b : bool)
| PInt (z : Z)
| PFloat (repr : string)
| PStr (s : string)
| PList (l : list pyval)
| PDict (items : list (string * pyval)).

Module Py.

(** The double quote, as a one-character string. *)
Definition dq : string := String (ascii_of_nat 34) EmptyString.

(** [str(z)] for an [int]. *)
Definition str_int (z : Z) : string := NilZero.string_of_int (Z.to_int z).

Definition hex_digit (n : N) : ascii :=
  if (n <? 10)%N then ascii_of_N (48 + n) else ascii_of_N (87 + n).

(** ["%02x" % n] for [n < 256]. *)
Definition hex2 (n : N) : string :=
  String (hex_digit (n / 16)) (String (hex_digit (n mod 16)) EmptyString).

(** [sep.join(parts)]. *)
Fixpoint join (sep : string) (parts : list string) : string :=
  match parts with
  | [] => ""
  | [p] => p
  | p :: rest => p ++ sep ++ join sep rest
  end.

(** [c * n] for a one-character string. *)
Fixpoint repeat_str (c : string) (n : nat) : string :=
  match n with
  | O => ""
  | S n' => c ++ repeat_str c n'
  end.

(** ["%0<width>d" % z] for [0 <= z]. *)
Definition zero_pad (width : nat) (z : Z) : string :=
  let s := str_int z in
  repeat_str "0" (width - String.length s) ++ s.

Definition newline : string := String (ascii_of_nat 10) EmptyString.

(** Does character [c] occur in [s]? *)
Fixpoint mem_char (c : ascii) (s : string) : bool :=
  match s with
  | EmptyString => false
  | String c' s' => Ascii.eqb c c' || mem_char c s'
  end.

(** [s1 + s2 + ...] over the characters of [s]. *)
Fixpoint concat_map (f : ascii -> string) (s : string) : string :=
  match s with
  | EmptyString => ""
  | String c s' => f c ++ concat_map f s'
  end.

(** [s] with every apostrophe turned into a double quote: a way to write
    down a text that holds double quotes. *)
Definition dquoted (s : string) : string :=
  concat_map (fun c => if Ascii.eqb c "'" then dq else String c EmptyString) s.

(** *** [repr] and [str] *)

(** [repr] of one character of a [str] (code points below 256): backslash,
    the quote in use, tab, newline and carriage return have short escapes;
    what [str.isprintable] refuses is written [\xNN]. *)
Definition repr_char (quote : ascii) (c : ascii) : string :=
  let n := N_of_ascii c in
  if (n =? 92)%N then "\\"
  else if Ascii.eqb c quote then String "\" (String c EmptyString)
  else if (n =? 9)%N then "\t"
  else if (n =? 10)%N then "\n"
  else if (n =? 13)%N then "\r"
  else if ((n <? 32) || ((127 <=? n) && (n <=? 160)) || (n =? 173))%N
       then "\x" ++ hex2 n
  else String c EmptyString.

(** [repr(s)]: single quotes, unless [s] has a single quote and no double
    quote. *)
Definition repr_str (s : string) : string :=
  let sq := "'"%char in
  let dqc := ascii_of_nat 34 in
  let quote := if mem_char sq s && negb (mem_char dqc s) then dqc else sq in
  String quote (concat_map (repr_char quote) s) ++ String quote EmptyString.

Fixpoint repr (v : pyval) : string :=
  match v with
  | PNone => "None"
  | PBool true => "True"
  | PBool false => "False"
  | PInt z => str_int z
  | PFloat r => r
  | PStr s => repr_str s
  | PList l => "[" ++ join ", " (map repr l) ++ "]"
  | PDict items =>
      "{" ++ join ", "
               (map (fun kv : string * pyval =>
                       let (k, x) := kv in repr_str k ++ ": " ++ repr x)
                    items)
          ++ "}"
  end.

(** [str(v)], what an f-string field [{v}] prints. *)
Definition str (v : pyval) : string :=
  match v with
  | PStr s => s
  | _ => repr v
  end.

(** [str(o)] for an optional [str] attribute. *)
Definition of_opt_str (o : option string) : pyval :=
  match o with
  | Some s => PStr s
  | None => PNone
  end.

End Py.

(* ================================================================== *)
(** * [json.dumps] *)

Module Json.

Import Py.

(** One character of a string under [ensure_ascii=True]: quote, backslash
    and the control characters with a short form are escaped by name,
    everything else outside [' '..'~'] as [\u00NN]. *)
Definition escape_char (c : ascii) : string :=
  let n := N_of_ascii c in
  if (n =? 34)%N then "\" ++ dq
  else if (n =? 92)%N then "\\"
  else if (n =? 8)%N then "\b"
  else if (n =? 12)%N then "\f"
  else if (n =? 10)%N then "\n"
  else if (n =? 13)%N then "\r"
  else if (n =? 9)%N then "\t"
  else if ((n <? 32) || (126 <? n))%N then "\u00" ++ hex2 n
  else String c EmptyString.

Definition encode_str (s : string) : string :=
  dq ++ concat_map escape_char s ++ dq.

(** A [float] prints as its [repr], the three non-finite ones under their
    JavaScript names. *)
Definition encode_float (r : string) : string :=
  if String.eqb r "nan" then "NaN"
  else if String.eqb r "inf" then "Infinity"
  else if String.eqb r "-inf" then "-Infinity"
  else r.

(** The line break and indentation before an item at nesting [level], and
    the separator between two items. *)
Definition newline_indent (indent : option nat) (level : nat) : string :=
  match indent with
  | Some n => newline ++ repeat_str " " (n * level)
  | None => ""
  end.

Definition item_separator (indent : option nat) (level : nat) : string :=
  match indent with
  | Some _ => "," ++ newline_indent indent level
  | None => ", "
  end.

(** [json.dumps(v, indent=indent)], at nesting [level]. *)
Fixpoint encode (indent : option nat) (level : nat) (v : pyval) : string :=
  match v with
  | PNone => "null"
  | PBool true => "true"
  | PBool false => "false"
  | PInt z => str_int z
  | PFloat r => encode_float r
  | PStr s => encode_str s
  | PList [] => "[]"
  | PList l =>
      "[" ++ newline_indent indent (S level)
          ++ join (item_separator indent (S level))
                  (map (encode indent (S level)) l)
          ++ newline_indent indent level ++ "]"
  | PDict [] => "{}"
  | PDict items =>
      "{" ++ newline_indent indent (S level)
          ++ join (item_separator indent (S level))
                  (map (fun kv : string * pyval =>
                          let (k, x) := kv in
                          encode_str k ++ ": " ++ encode indent (S level) x)
                       items)
          ++ newline_indent indent level ++ "}"
  end.

Definition dumps (indent : option nat) (v : pyval) : string :=
  encode indent 0 v.

End Json.

(* ================================================================== *)
(** * [datetime.isoformat] *)

Module Datetime.

Import Py.

(** A [datetime]; [utcoffset] is [None] for a naive one, otherwise the
    offset from UTC in microseconds. *)
Record t : Type := mk {
  year : Z; month : Z; day : Z;
  hour : Z; minute : Z; second : Z; microsecond : Z;
  utcoffset : option Z
}.

(** [HH:MM:SS], with [.ffffff] when the microseconds are not zero. *)
Definition format_time (hh mm ss us : Z) : string :=
  zero_pad 2 hh ++ ":" ++ zero_pad 2 mm ++ ":" ++ zero_pad 2 ss
    ++ (if us =? 0 then "" else "." ++ zero_pad 6 us).

(** [+HH:MM], with [:SS] and [.ffffff] when the offset is not a whole
    number of minutes or seconds; nothing for a naive datetime. *)
Definition format_offset (off : option Z) : string :=
  match off with
  | None => ""
  | Some us =>
      let sign := if us <? 0 then "-" else "+" in
      let a := Z.abs us in
      let hh := a / 3600000000 in
      let mm := (a mod 3600000000) / 60000000 in
      let ss := (a mod 3600000000) mod 60000000 in
      sign ++ zero_pad 2 hh ++ ":" ++ zero_pad 2 mm
        ++ (if ss =? 0 then ""
            else ":" ++ zero_pad 2 (ss / 1000000)
                   ++ (if ss mod 1000000 =? 0 then ""
                       else "." ++ zero_pad 6 (ss mod 1000000)))
  end.

Definition isoformat (d : t) : string :=
  zero_pad 4 (year d) ++ "-" ++ zero_pad 2 (month d) ++ "-"
    ++ zero_pad 2 (day d) ++ "T"
    ++ format_time (hour d) (minute d) (second d) (microsecond d)
    ++ format_offset (utcoffset d).

End Datetime.

(* ================================================================== *)
(** * The Telegram objects the script reads *)

Module User.
Record t : Type := mk {
  id : Z;
  is_bot : bool;
  first_name : string;
  last_name : option string;
  username : option string;
  language_code : option string
}.
End User.

Module Chat.
Record t : Type := mk {
  id : Z;
  type : string;
  first_name : option string;
  last_name : option string;
  username : option string
}.
End Chat.

Module WebAppData.
Record t : Type := mk {
  data : string;
  button_text : string
}.
End WebAppData.

Module Message.
Record t : Type := mk {
  message_id : Z;
  date : Datetime.t;
  chat : Chat.t;
  text : option string;
  web_app_data : option WebAppData.t
}.
End Message.

(** An [Update], by the attributes the script reads; each of the four
    objects is [None] when the update carries none. *)
Module Update.
Record t : Type := mk {
  update_id : Z;
  message : option Message.t;
  effective_user : option User.t;
  effective_chat : option Chat.t;
  effective_message : option Message.t
}.
End Update.

(* ================================================================== *)
(** * Exceptions, effects and the world *)

(** A raised exception: its class and [str(e)].  Only instances of
    [Exception] are modelled, the ones [except Exception] catches;
    [KeyboardInterrupt], [SystemExit] and the cancellation of the task,
    which derive from [BaseException] alone, are outside the model. *)
Inductive exn : Type :=
| Exception (class : string) (message : string).

Definition exn_str (e : exn) : string :=
  match e with Exception _ m => m end.

Inductive result (A : Type) : Type :=
| Ok (a : A)
| Raise (e : exn).
Arguments Ok {A} a.
Arguments Raise {A} e.

Inductive level : Type := INFO | ERROR.

Inductive reply_markup : Type :=
| ReplyKeyboardRemove
| ReplyKeyboardMarkup_from_button (text : string) (web_app_url : option string).

(** What a run does to the outside, in the order it does it: a log record,
    the POST of [requests.post(url, headers=headers, json=json)], and a
    message sent to a chat by [reply_text] or [reply_html]. *)
Inductive effect : Type :=
| Log (lv : level) (msg : string)
| HttpPost (url : option string) (headers : list (string * string))
           (json : pyval)
| SendMessage (chat_id : Z) (text : string) (parse_mode : option string)
              (markup : option reply_markup).

Definition trace : Type := list effect.

Module Response.
Record t : Type := mk {
  status_code : Z;
  text : string
}.
End Response.

(** The configuration read at start-up and the outcome of every call that
    leaves the script: [json.loads] (a value, or the exception it raises),
    [requests.post] (a response, or the exception it raises) and the Bot API
    call behind [reply_text] and [reply_html]. *)
Module World.
Record t : Type := mk {
  webhook_url : option string;
  webapp_url : option string;
  json_loads : string -> result pyval;
  requests_post :
    option string -> list (string * string) -> pyval -> result Response.t;
  send_message :
    Z -> string -> option string -> option reply_markup -> result unit
}.
End World.

(** ** The monads *)

Class Monad (m : Type -> Type) : Type := {
  ret : forall {A : Type}, A -> m A;
  bind : forall {A B : Type}, m A -> (A -> m B) -> m B
}.

Notation "x <- c1 ;; c2" := (bind c1 (fun x => c2))
  (at level 61, c1 at next level, right associativity).
Notation "c1 ;; c2" := (bind c1 (fun _ => c2))
  (at level 61, right associativity).

#[global] Instance result_monad : Monad result := {
  ret := fun A a => Ok a;
  bind := fun A B r k =>
    match r with
    | Ok a => k a
    | Raise e => Raise e
    end
}.

(** A computation of the script: given the world, its result and the
    effects it issued.  An exception keeps the effects issued before it. *)
Definition M (A : Type) : Type := World.t -> result A * trace.

#[global] Instance M_monad : Monad M := {
  ret := fun A a _ => (Ok a, []);
  bind := fun A B c k w =>
    match c w with
    | (Ok a, t1) => let (r, t2) := k a w in (r, (t1 ++ t2)%list)
    | (Raise e, t1) => (Raise e, t1)
    end
}.

Definition lift {A : Type} (r : result A) : M A := fun _ => (r, []).

Definition ask : M World.t := fun w => (Ok w, []).

(** [try: body  except Exception as e: handler(e)]. *)
Definition try_except {A : Type} (body : M A) (handler : exn -> M A) : M A :=
  fun w =>
    match body w with
    | (Ok a, t1) => (Ok a, t1)
    | (Raise e, t1) => let (r, t2) := handler e w in (r, (t1 ++ t2)%list)
    end.

(** Attribute [attr] read on [o]: an [AttributeError] when [o] is [None]. *)
Definition getattr {A B : Type} (o : option A) (attr : string) (proj : A -> B)
  : result B :=
  match o with
  | Some a => Ok (proj a)
  | None =>
      Raise (Exception "AttributeError"
               ("'NoneType' object has no attribute '" ++ attr ++ "'"))
  end.

Definition type_name (v : pyval) : string :=
  match v with
  | PNone => "NoneType"
  | PBool _ => "bool"
  | PInt _ => "int"
  | PFloat _ => "float"
  | PStr _ => "str"
  | PList _ => "list"
  | PDict _ => "dict"
  end.

Fixpoint assoc (k : string) (items : list (string * pyval)) : option pyval :=
  match items with
  | [] => None
  | (k', x) :: rest => if String.eqb k k' then Some x else assoc k rest
  end.

(** [v[k]] for a [str] key: the value under [k] in a [dict], [KeyError]
    when the key is absent, [TypeError] on anything that is not a [dict]
    (its message, which varies with the type, is reduced to the type's
    name). *)
Definition getitem (v : pyval) (k : string) : result pyval :=
  match v with
  | PDict items =>
      match assoc k items with
      | Some x => Ok x
      | None => Raise (Exception "KeyError" (Py.repr_str k))
      end
  | _ => Raise (Exception "TypeError" (type_name v))
  end.

(** ** The outside calls *)

Definition logger_info (msg : string) : M unit :=
  fun _ => (Ok tt, [Log INFO msg]).

Definition logger_error (msg : string) : M unit :=
  fun _ => (Ok tt, [Log ERROR msg]).

Definition json_loads (s : string) : M pyval :=
  fun w => (World.json_loads w s, []).

Definition requests_post (url : option string)
    (headers : list (string * string)) (json : pyval) : M Response.t :=
  fun w => (World.requests_post w url headers json,
            [HttpPost url headers json]).

Definition send_message (chat_id : Z) (text : string)
    (parse_mode : option string) (markup : option reply_markup) : M unit :=
  fun w => (World.send_message w chat_id text parse_mode markup,
            [SendMessage chat_id text parse_mode markup]).

(** [message.reply_text] and [message.reply_html]: a message to the chat of
    [message], the second with parse mode HTML. *)
Definition reply_text (message : Message.t) (text : string)
    (markup : option reply_markup) : M unit :=
  send_message (Chat.id (Message.chat message)) text None markup.

Definition reply_html (message : Message.t) (text : string)
    (markup : option reply_markup) : M unit :=
  send_message (Chat.id (Message.chat message)) text (Some "HTML") markup.

(* ================================================================== *)
(** * The script *)

Import Py.

(** [start]: the welcome message with the web-app button. *)
Definition start (update : Update.t) : M unit :=
  w <- ask ;;
  message <- lift (getattr (Update.message update) "reply_text" (fun m => m)) ;;
  reply_text message
    "Welcome to the BOT Service! Click on the 'Service Client' button below to submit your data."
    (Some (ReplyKeyboardMarkup_from_button "Service client"
             (World.webapp_url w))).

Definition sending_prefix : string :=
  "Sending the following data to the webhook: ".

Definition sent_ok : string := "Data successfully sent to the webhook.".

Definition sent_failed (response : Response.t) : string :=
  "Failed to send data to webhook. Status code: "
    ++ str_int (Response.status_code response)
    ++ ", Response: " ++ Response.text response.

Definition sending_raised (e : exn) : string :=
  "An error occurred while sending data to the webhook: " ++ exn_str e.

(** [send_to_webhook]: log the envelope, POST it, log the outcome; whatever
    is raised on the way is logged and dropped. *)
Definition send_to_webhook (payload : pyval) : M unit :=
  try_except
    (let headers := [("Content-Type", "application/json")] in
     logger_info (sending_prefix ++ Json.dumps (Some 2%nat) payload) ;;
     w <- ask ;;
     response <- requests_post (World.webhook_url w) headers payload ;;
     if Response.status_code response =? 200
     then logger_info sent_ok
     else logger_error (sent_failed response))
    (fun e => logger_error (sending_raised e)).

(** [format_payload]: the envelope, a [dict] literal over the attributes of
    the update.  The first attribute read on each of the three objects
    fails when the object is [None]. *)
Definition format_payload (update : Update.t) (web_app_data : pyval)
  : result pyval :=
  let user_info := Update.effective_user update in
  let chat_info := Update.effective_chat update in
  let message := Update.effective_message update in
  msg <- getattr message "message_id" (fun m => m) ;;
  user <- getattr user_info "id" (fun u => u) ;;
  chat <- getattr chat_info "id" (fun c => c) ;;
  ret (PDict [
    ("update_id", PInt (Update.update_id update));
    ("message", PDict [
      ("message_id", PInt (Message.message_id msg));
      ("from", PDict [
        ("id", PInt (User.id user));
        ("is_bot", PBool (User.is_bot user));
        ("first_name", PStr (User.first_name user));
        ("last_name", of_opt_str (User.last_name user));
        ("username", of_opt_str (User.username user));
        ("language_code", of_opt_str (User.language_code user))
      ]);
      ("chat", PDict [
        ("id", PInt (Chat.id chat));
        ("first_name", of_opt_str (Chat.first_name chat));
        ("last_name", of_opt_str (Chat.last_name chat));
        ("username", of_opt_str (Chat.username chat));
        ("type", PStr (Chat.type chat))
      ]);
      ("date", PStr (Datetime.isoformat (Message.date msg)));
      ("text", of_opt_str (Message.text msg));
      ("attachment", PDict [
        ("type", PStr "OtherOrNone")
      ]);
      ("web_app_data", web_app_data)
    ])
  ]).

(** [d[k1][k2]...]. *)
Fixpoint getpath (v : pyval) (path : list string) : result pyval :=
  match path with
  | [] => Ok v
  | k :: rest => x <- getitem v k ;; getpath x rest
  end.

(** The confirmation text, the f-string of the handler. *)
Definition response_message (formatted_payload : pyval) : result string :=
  update_id <- getpath formatted_payload ["update_id"] ;;
  message_id <- getpath formatted_payload ["message"; "message_id"] ;;
  first_name <- getpath formatted_payload ["message"; "from"; "first_name"] ;;
  last_name <- getpath formatted_payload ["message"; "from"; "last_name"] ;;
  username <- getpath formatted_payload ["message"; "from"; "username"] ;;
  text <- getpath formatted_payload ["message"; "text"] ;;
  attachment_type <-
    getpath formatted_payload ["message"; "attachment"; "type"] ;;
  web_app_data <- getpath formatted_payload ["message"; "web_app_data"] ;;
  ret ("Data received and sent to the webhook:" ++ newline ++ newline
       ++ "<b>Update ID:</b> " ++ str update_id ++ newline
       ++ "<b>Message ID:</b> " ++ str message_id ++ newline
       ++ "<b>From:</b> " ++ str first_name ++ " "
       ++ str last_name ++ " (@" ++ str username ++ ")" ++ newline
       ++ "<b>Text:</b> " ++ str text ++ newline
       ++ "<b>Attachment Type:</b> " ++ str attachment_type ++ newline
       ++ "<b>WebApp Data:</b> " ++ Json.dumps (Some 2%nat) web_app_data
       ++ newline).

Definition generic_failure : string :=
  "An error occurred while processing your data. Please try again later.".

(** The [try] block of the handler. *)
Definition web_app_data_try (update : Update.t) : M unit :=
  effective_message <-
    lift (getattr (Update.effective_message update) "web_app_data"
            (fun m => m)) ;;
  data <- lift (getattr (Message.web_app_data effective_message) "data"
                  WebAppData.data) ;;
  raw_web_app_data <- json_loads data ;;
  logger_info ("Received WebApp data: "
               ++ Json.dumps (Some 2%nat) raw_web_app_data) ;;
  formatted_payload <- lift (format_payload update raw_web_app_data) ;;
  send_to_webhook formatted_payload ;;
  text <- lift (response_message formatted_payload) ;;
  message <- lift (getattr (Update.message update) "reply_html"
                     (fun m => m)) ;;
  reply_html message text (Some ReplyKeyboardRemove).

(** The [except Exception as e] block of the handler. *)
Definition web_app_data_except (update : Update.t) (e : exn) : M unit :=
  logger_error ("Error handling WebApp data: " ++ exn_str e) ;;
  message <- lift (getattr (Update.message update) "reply_text"
                     (fun m => m)) ;;
  reply_text message generic_failure None.

(** [web_app_data]: the handler of a web-app submission. *)
Definition web_app_data (update : Update.t) : M unit :=
  try_except (web_app_data_try update) (web_app_data_except update).

(** Running a computation: its result and the effects it issued. *)
Definition outcome {A : Type} (c : M A) (w : World.t) : result A := fst (c w).
Definition effects {A : Type} (c : M A) (w : World.t) : trace := snd (c w).

(* ================================================================== *)
(** * The scenario of the specification *)

Module Scenario.

Definition ann : User.t :=
  User.mk 1 false "Ann" None (Some "ann") None.

Definition private_chat : Chat.t :=
  Chat.mk 1 "private" None None None.

(** The payload [{"choice":"A"}] as the mini-app submits it. *)
Definition choice_A : string := dquoted "{'choice':'A'}".

Definition submitted (data : string) : WebAppData.t :=
  WebAppData.mk data "Service client".

Definition submission (data : string) : Message.t :=
  Message.mk 5 (Datetime.mk 2024 1 1 0 0 0 0 None) private_chat
    (Some "hello") (Some (submitted data)).

Definition update_with (data : string) : Update.t :=
  Update.mk 42 (Some (submission data)) (Some ann) (Some private_chat)
    (Some (submission data)).

Definition update : Update.t := update_with choice_A.
Definition update_not_json : Update.t := update_with "not-json".

(** An event with every optional field absent. *)
Definition nobody : User.t := User.mk 7 false "Bo" None None None.

Definition bare_submission : Message.t :=
  Message.mk 9 (Datetime.mk 2024 1 1 0 0 0 0 (Some 0)) private_chat None
    (Some (submitted choice_A)).

Definition bare_update : Update.t :=
  Update.mk 43 (Some bare_submission) (Some nobody) (Some private_chat)
    (Some bare_submission).

(** What [json.loads] gives on [choice_A]. *)
Definition parsed : pyval := PDict [("choice", PStr "A")].

(** [json.loads] on the two payloads of the scenarios; every other text
    is refused here. *)
Definition loads (s : string) : result pyval :=
  if String.eqb s choice_A then Ok parsed
  else Raise (Exception "JSONDecodeError"
                "Expecting value: line 1 column 1 (char 0)").

Definition url : option string := Some "https://example.org/hook".

(** A world where the webhook answers with [status] and Telegram accepts
    every message. *)
Definition answering (status : Z) : World.t :=
  World.mk url None loads
    (fun _ _ _ => Ok (Response.mk status "body"))
    (fun _ _ _ _ => Ok tt).

(** A world where the webhook cannot be reached. *)
Definition unreachable : World.t :=
  World.mk url None loads
    (fun _ _ _ => Raise (Exception "ConnectionError" "connection refused"))
    (fun _ _ _ _ => Ok tt).

(** A world where the webhook answers 200 and Telegram refuses every
    message. *)
Definition telegram_down : World.t :=
  World.mk url None loads
    (fun _ _ _ => Ok (Response.mk 200 "ok"))
    (fun _ _ _ _ => Raise (Exception "NetworkError" "timed out")).

(** A world where the webhook answers 200 and Telegram refuses the HTML
    confirmation only. *)
Definition html_refused : World.t :=
  World.mk url None loads
    (fun _ _ _ => Ok (Response.mk 200 "ok"))
    (fun _ _ mode _ =>
       match mode with
       | Some _ => Raise (Exception "BadRequest" "can't parse entities")
       | None => Ok tt
       end).

End Scenario.

(* ================================================================== *)
(** * Inbound events *)

(** The event the transport hands to the handler for a web-app submission:
    the update carries a message, which is its effective message, comes
    from user [usr] in chat [c], and holds the submitted data [wad]. *)
Record InboundEvent (u : Update.t) (usr : User.t) (c : Chat.t)
    (m : Message.t) (wad : WebAppData.t) : Prop := {
  ie_message : Update.message u = Some m;
  ie_effective_message : Update.effective_message u = Some m;
  ie_effective_user : Update.effective_user u = Some usr;
  ie_effective_chat : Update.effective_chat u = Some c;
  ie_origin : Message.chat m = c;
  ie_web_app_data : Message.web_app_data m = Some wad
}.

(** [dict.keys()], in insertion order. *)
Definition keys (v : pyval) : list string :=
  match v with
  | PDict items => map fst items
  | _ => []
  end.

(** The keys of the [dict] under [path]. *)
Definition keys_at (v : pyval) (path : list string) : result (list string) :=
  x <- getpath v path ;; ret (keys x).

(** The envelope holds the optional attribute [field] under [path]: its
    string when the attribute is present, [None] when it is missing, which
    [json.dumps] prints as [null]. *)
Definition holds_optional (env : pyval) (path : list string)
    (field : option string) : Prop :=
  match field with
  | Some s => getpath env path = Ok (PStr s)
  | None =>
      getpath env path = Ok PNone
      /\ (x <- getpath env path ;; ret (Json.dumps None x)) = Ok "null"
  end.

(** The body [requests.post(..., json=payload)] sends:
    [json.dumps(payload)]. *)
Definition request_body (payload : pyval) : string := Json.dumps None payload.

(** The fields [format_payload] reads agree on two updates. *)
Definition message_fields (m : Message.t) : Z * Datetime.t * option string :=
  (Message.message_id m, Message.date m, Message.text m).

Definition same_fields_read (u1 u2 : Update.t) : Prop :=
  Update.update_id u1 = Update.update_id u2
  /\ Update.effective_user u1 = Update.effective_user u2
  /\ Update.effective_chat u1 = Update.effective_chat u2
  /\ option_map message_fields (Update.effective_message u1)
     = option_map message_fields (Update.effective_message u2).

(** ** What the forwarder reports *)

(** The forwarder returns nothing; its report is the log record that
    follows the POST: [sent_ok] at level INFO for success, a record at level
    ERROR for failure. *)
Definition is_success_report (e : effect) : bool :=
  match e with
  | Log INFO msg => String.eqb msg sent_ok
  | _ => false
  end.

Definition is_failure_report (e : effect) : bool :=
  match e with
  | Log ERROR _ => true
  | _ => false
  end.

Definition reports_success (t : trace) : bool := existsb is_success_report t.
Definition reports_failure (t : trace) : bool := existsb is_failure_report t.

Definition is_post (e : effect) : bool :=
  match e with
  | HttpPost _ _ _ => true
  | _ => false
  end.

(** The POST of [payload] in world [w] was answered with status 200. *)
Definition answered_200 (w : World.t) (payload : pyval) : bool :=
  match World.requests_post w (World.webhook_url w)
          [("Content-Type", "application/json")] payload with
  | Ok response => Response.status_code response =? 200
  | Raise _ => false
  end.

(** The log record that closes a forwarding attempt. *)
Definition outcome_record (w : World.t) (payload : pyval) : effect :=
  match World.requests_post w (World.webhook_url w)
          [("Content-Type", "application/json")] payload with
  | Ok response =>
      if Response.status_code response =? 200 then Log INFO sent_ok
      else Log ERROR (sent_failed response)
  | Raise e => Log ERROR (sending_raised e)
  end.

(** [json.dumps] of the result of [format_payload], when it returns. *)
Definition serialized (r : result pyval) : result string :=
  env <- r ;; ret (request_body env).

(** ** What the handler can see of the forwarding *)

Definition is_log (e : effect) : bool :=
  match e with
  | Log _ _ => true
  | _ => false
  end.

(** The effects that leave the process: the POST and the messages. *)
Definition calls (t : trace) : trace := filter (fun e => negb (is_log e)) t.

(** Two worlds that differ at most in what [requests.post] answers. *)
Definition same_but_post (w w' : World.t) : Prop :=
  World.webhook_url w = World.webhook_url w'
  /\ (forall s, World.json_loads w s = World.json_loads w' s)
  /\ (forall chat_id text mode markup,
        World.send_message w chat_id text mode markup
        = World.send_message w' chat_id text mode markup).

(** A computation that does not see the answer to the POST: in two such
    worlds it returns the same result and makes the same calls. *)
Definition post_blind {A : Type} (c : M A) : Prop :=
  forall w w', same_but_post w w' ->
    outcome c w = outcome c w' /\ calls (effects c w) = calls (effects c w').

(* ================================================================== *)
(** * The runs of the handler, case by case *)

(** The [AttributeError] of reading attribute [attr] on [None]. *)
Definition attribute_error (attr : string) : exn :=
  Exception "AttributeError"
    ("'NoneType' object has no attribute '" ++ attr ++ "'").

(** The headers of the POST. *)
Definition json_headers : list (string * string) :=
  [("Content-Type", "application/json")].

(** The welcome text of [start]. *)
Definition welcome : string :=
  "Welcome to the BOT Service! Click on the 'Service Client' button below to submit your data.".

(** The log record of the payload received. *)
Definition received (d : pyval) : effect :=
  Log INFO ("Received WebApp data: " ++ Json.dumps (Some 2%nat) d).

(** The log record of the [except] block. *)
Definition handling_failed (e : exn) : effect :=
  Log ERROR ("Error handling WebApp data: " ++ exn_str e).

(** The effects of forwarding [env] in world [w]. *)
Definition forwarding (w : World.t) (env : pyval) : trace :=
  [Log INFO (sending_prefix ++ Json.dumps (Some 2%nat) env);
   HttpPost (World.webhook_url w) json_headers env;
   outcome_record w env].

(** The confirmation and the failure reply to the chat of [m]. *)
Definition confirmation (m : Message.t) (text : string) : effect :=
  SendMessage (Chat.id (Message.chat m)) text (Some "HTML")
    (Some ReplyKeyboardRemove).

Definition failure_reply (m : Message.t) : effect :=
  SendMessage (Chat.id (Message.chat m)) generic_failure None None.

Definition is_send (e : effect) : bool :=
  match e with
  | SendMessage _ _ _ _ => true
  | _ => false
  end.

Definition posts (t : trace) : trace := filter is_post t.
Definition messages (t : trace) : trace := filter is_send t.

(** Where the [try] block of the handler stops, and with what: each
    constructor is one way through the block, with the conditions on the
    update and the world that select it. *)
Inductive try_stops (u : Update.t) (w : World.t)
  : result unit * trace -> Prop :=
| stops_no_message :
    Update.effective_message u = None ->
    try_stops u w (Raise (attribute_error "web_app_data"), [])
| stops_no_data (em : Message.t) :
    Update.effective_message u = Some em ->
    Message.web_app_data em = None ->
    try_stops u w (Raise (attribute_error "data"), [])
| stops_bad_json (em : Message.t) (wad : WebAppData.t) (e : exn) :
    Update.effective_message u = Some em ->
    Message.web_app_data em = Some wad ->
    World.json_loads w (WebAppData.data wad) = Raise e ->
    try_stops u w (Raise e, [])
| stops_no_envelope (em : Message.t) (wad : WebAppData.t) (d : pyval)
    (e : exn) :
    Update.effective_message u = Some em ->
    Message.web_app_data em = Some wad ->
    World.json_loads w (WebAppData.data wad) = Ok d ->
    format_payload u d = Raise e ->
    try_stops u w (Raise e, [received d])
| stops_no_reply (em : Message.t) (wad : WebAppData.t) (d env : pyval) :
    Update.effective_message u = Some em ->
    Message.web_app_data em = Some wad ->
    World.json_loads w (WebAppData.data wad) = Ok d ->
    format_payload u d = Ok env ->
    Update.message u = None ->
    try_stops u w
      (Raise (attribute_error "reply_html"),
       (received d :: forwarding w env)%list)
| stops_replied (em : Message.t) (wad : WebAppData.t) (d env : pyval)
    (text : string) (m : Message.t) :
    Update.effective_message u = Some em ->
    Message.web_app_data em = Some wad ->
    World.json_loads w (WebAppData.data wad) = Ok d ->
    format_payload u d = Ok env ->
    response_message env = Ok text ->
    Update.message u = Some m ->
    try_stops u w
      (World.send_message w (Chat.id (Message.chat m)) text (Some "HTML")
         (Some ReplyKeyboardRemove),
       (received d :: forwarding w env ++ [confirmation m text])%list).

(** [str(o)] for an optional [str]: the word [None] when it is missing. *)
Definition or_None (o : option string) : string :=
  match o with
  | Some s => s
  | None => "None"
  end.

(** What the envelope keeps of a message: its id, the ISO string of its
    date, its text. *)
Definition message_kept (m : Message.t) : Z * string * option string :=
  (Message.message_id m, Datetime.isoformat (Message.date m), Message.text m).

(** ** Updates off the expected path *)

Module Edge.

(** An edited message: the update has an effective message and no
    [message]. *)
Definition edited : Update.t :=
  Update.mk 44 None (Some Scenario.ann) (Some Scenario.private_chat)
    (Some (Scenario.submission Scenario.choice_A)).

(** A submission with no user on the update. *)
Definition anonymous : Update.t :=
  Update.mk 45 (Some (Scenario.submission Scenario.choice_A)) None
    (Some Scenario.private_chat)
    (Some (Scenario.submission Scenario.choice_A)).

(** An update with nothing in it. *)
Definition empty : Update.t := Update.mk 46 None None None None.

End Edge.

(* ================================================================== *)
(** * Texts [json.loads] accepts that are not JSON *)

Module Rfc8259.

(** RFC 8259: a JSON text is a value between optional white space (space,
    tab, line feed, carriage return), and a value is an object, an array, a
    string, a number or one of [false], [null], [true]: it begins with a
    brace, a bracket, a double quote, a minus sign, a digit, or one of the
    letters [f], [n], [t]. *)
Definition is_ws (c : ascii) : bool :=
  let n := N_of_ascii c in
  ((n =? 32) || (n =? 9) || (n =? 10) || (n =? 13))%N.

Fixpoint skip_ws (s : string) : string :=
  match s with
  | String c s' => if is_ws c then skip_ws s' else s
  | EmptyString => EmptyString
  end.

Definition begins_value (c : ascii) : bool :=
  let n := N_of_ascii c in
  ((n =? 123) || (n =? 91) || (n =? 34) || (n =? 45)
   || ((48 <=? n) && (n <=? 57))
   || (n =? 102) || (n =? 110) || (n =? 116))%N.

(** What every JSON text satisfies: after the white space comes the
    beginning of a value.  A text that fails this is not valid JSON. *)
Definition may_be_json (s : string) : bool :=
  match skip_ws s with
  | String c _ => begins_value c
  | EmptyString => false
  end.

End Rfc8259.

(** The constant [NaN]: no JSON text, and [json.loads] reads it as the
    float [nan]. *)
Module Lenient.

Definition text : string := "NaN".

Definition update : Update.t := Scenario.update_with text.

(** [json.loads] on [NaN], and on the texts of the scenarios. *)
Definition loads (s : string) : result pyval :=
  if String.eqb s text then Ok (PFloat "nan") else Scenario.loads s.

(** A world where [requests.post] refuses to serialise the envelope, as it
    does for a float out of range, and Telegram accepts every message. *)
Definition world : World.t :=
  World.mk Scenario.url None loads
    (fun _ _ _ =>
       Raise (Exception "InvalidJSONError"
                "Out of range float values are not JSON compliant"))
    (fun _ _ _ _ => Ok tt).

End Lenient.

(* ================================================================== *)
(** * The library functions on examples *)

Example dumps_compact :
  Json.dumps None (PDict [("a", PInt 1); ("b", PList [PNone; PBool true])])
  = dquoted "{'a': 1, 'b': [null, true]}".
Proof. reflexivity. Qed.

Example dumps_escapes :
  Json.dumps None (PStr ("tab" ++ String (ascii_of_nat 9) "caf"
                           ++ String (ascii_of_nat 233) ""))
  = dquoted "'tab\tcaf\u00e9'".
Proof. reflexivity. Qed.

Example repr_dict :
  Py.str (PDict [("it's", PList [PStr "a"; PInt (-3); PNone])])
  = "{" ++ dq ++ "it's" ++ dq ++ ": ['a', -3, None]}".
Proof. reflexivity. Qed.

Example isoformat_naive :
  Datetime.isoformat (Datetime.mk 2024 1 1 0 0 0 0 None)
  = "2024-01-01T00:00:00".
Proof. reflexivity. Qed.

Example isoformat_utc :
  Datetime.isoformat (Datetime.mk 2024 12 31 23 59 7 250 (Some 0))
  = "2024-12-31T23:59:07.000250+00:00".
Proof. reflexivity. Qed.

(** The first scenario: the body of the POST and the confirmation. *)
Example scenario_body :
  serialized (format_payload Scenario.update Scenario.parsed)
  = Ok (dquoted
          ("{'update_id': 42, 'message': {'message_id': 5, "
           ++ "'from': {'id': 1, 'is_bot': false, 'first_name': 'Ann', "
           ++ "'last_name': null, 'username': 'ann', 'language_code': null}, "
           ++ "'chat': {'id': 1, 'first_name': null, 'last_name': null, "
           ++ "'username': null, 'type': 'private'}, "
           ++ "'date': '2024-01-01T00:00:00', 'text': 'hello', "
           ++ "'attachment': {'type': 'OtherOrNone'}, "
           ++ "'web_app_data': {'choice': 'A'}}}")).
Proof. reflexivity. Qed.

Example scenario_confirmation :
  (env <- format_payload Scenario.update Scenario.parsed ;;
   response_message env)
  = Ok ("Data received and sent to the webhook:" ++ newline ++ newline
        ++ "<b>Update ID:</b> 42" ++ newline
        ++ "<b>Message ID:</b> 5" ++ newline
        ++ "<b>From:</b> Ann None (@ann)" ++ newline
        ++ "<b>Text:</b> hello" ++ newline
        ++ "<b>Attachment Type:</b> OtherOrNone" ++ newline
        ++ "<b>WebApp Data:</b> {" ++ newline
        ++ dquoted "  'choice': 'A'" ++ newline
        ++ "}" ++ newline).
Proof. reflexivity. Qed.

Example scenario_forwarded :
  effects (send_to_webhook Scenario.parsed) (Scenario.answering 500)
  = [Log INFO (sending_prefix ++ "{" ++ newline
               ++ dquoted "  'choice': 'A'" ++ newline ++ "}");
     HttpPost Scenario.url [("Content-Type", "application/json")]
       Scenario.parsed;
     Log ERROR
       "Failed to send data to webhook. Status code: 500, Response: body"].
Proof. reflexivity. Qed.

(** The second scenario: the payload [not-json] gives the error log line and
    the generic reply, and nothing else. *)
Example scenario_not_json :
  web_app_data Scenario.update_not_json (Scenario.answering 200)
  = (Ok tt,
     [Log ERROR
        "Error handling WebApp data: Expecting value: line 1 column 1 (char 0)";
      SendMessage 1 generic_failure None None]).
Proof. reflexivity. Qed.

(* ================================================================== *)
(** * Running the monad *)

Section Runs.

Context {A B : Type}.

Lemma bind_ok (c : M A) (k : A -> M B) (w : World.t) (a : A) (t : trace) :
  c w = (Ok a, t) ->
  bind c k w = (fst (k a w), (t ++ snd (k a w))%list).
Proof.
  intros Hc. cbn. rewrite Hc. destruct (k a w); reflexivity.
Qed.

Lemma bind_raise (c : M A) (k : A -> M B) (w : World.t) (e : exn)
    (t : trace) :
  c w = (Raise e, t) -> bind c k w = (Raise e, t).
Proof.
  intros Hc. cbn. rewrite Hc. reflexivity.
Qed.

Lemma bind_lift_ok (a : A) (k : A -> M B) (w : World.t) :
  bind (lift (Ok a)) k w = k a w.
Proof.
  cbn. destruct (k a w); reflexivity.
Qed.

End Runs.

Lemma try_except_ok {A : Type} (body : M A) (handler : exn -> M A)
    (w : World.t) (a : A) (t : trace) :
  body w = (Ok a, t) -> try_except body handler w = (Ok a, t).
Proof.
  intros Hb. unfold try_except. rewrite Hb. reflexivity.
Qed.

Lemma try_except_raise {A : Type} (body : M A) (handler : exn -> M A)
    (w : World.t) (e : exn) (t : trace) :
  body w = (Raise e, t) ->
  try_except body handler w
  = (fst (handler e w), (t ++ snd (handler e w))%list).
Proof.
  intros Hb. unfold try_except. rewrite Hb.
  destruct (handler e w); reflexivity.
Qed.

(* ================================================================== *)
(** * The forwarder *)

(** Every run of the forwarder: it returns [None], after the log record of
    the attempt, the POST, and the log record of the outcome. *)
Lemma send_to_webhook_run (payload : pyval) (w : World.t) :
  send_to_webhook payload w
  = (Ok tt,
     [Log INFO (sending_prefix ++ Json.dumps (Some 2%nat) payload);
      HttpPost (World.webhook_url w) [("Content-Type", "application/json")]
        payload;
      outcome_record w payload]).
Proof.
  unfold send_to_webhook, try_except, outcome_record.
  cbn -[Json.dumps sending_prefix sent_ok sent_failed sending_raised
        String.append Z.eqb].
  destruct (World.requests_post w (World.webhook_url w)
              [("Content-Type", "application/json")] payload) as [r | e];
    cbn -[Json.dumps sending_prefix sent_ok sent_failed sending_raised
          String.append Z.eqb].
  - destruct (Response.status_code r =? 200); reflexivity.
  - reflexivity.
Qed.

Lemma sending_is_not_success_report (s : string) :
  is_success_report (Log INFO (sending_prefix ++ s)) = false.
Proof. reflexivity. Qed.

(** C3. For every envelope and every outcome of the POST, the forwarder
    reports success (the INFO record "Data successfully sent to the
    webhook.") if and only if the POST was answered with status 200; for
    every other status, and when the POST raises, it reports failure (a
    record at level ERROR); and in every case it returns normally: no
    exception escapes it. *)
Theorem send_to_webhook_reports (payload : pyval) (w : World.t) :
  outcome (send_to_webhook payload) w = Ok tt
  /\ reports_success (effects (send_to_webhook payload) w)
     = answered_200 w payload
  /\ reports_failure (effects (send_to_webhook payload) w)
     = negb (answered_200 w payload).
Proof.
  unfold outcome, effects. rewrite send_to_webhook_run.
  split; [reflexivity |].
  unfold reports_success, reports_failure, answered_200, outcome_record.
  cbn [fst snd existsb is_failure_report is_post].
  rewrite sending_is_not_success_report.
  cbn [is_success_report orb].
  destruct (World.requests_post w (World.webhook_url w)
              [("Content-Type", "application/json")] payload) as [r | e].
  - destruct (Response.status_code r =? 200); split; reflexivity.
  - split; reflexivity.
Qed.

(* ================================================================== *)
(** * The envelope builder *)

(** [format_payload] returns exactly when the update carries a message, a
    user and a chat. *)
Lemma format_payload_returns_iff (u : Update.t) (d : pyval) :
  (exists env, format_payload u d = Ok env)
  <-> (Update.effective_message u <> None
       /\ Update.effective_user u <> None
       /\ Update.effective_chat u <> None).
Proof.
  unfold format_payload.
  destruct (Update.effective_message u) as [m |],
           (Update.effective_user u) as [usr |],
           (Update.effective_chat u) as [c |]; cbn;
    (split;
     [ intros [env Henv]; try discriminate Henv;
       repeat split; discriminate
     | intros (Hm & Hu & Hc); try congruence; eexists; reflexivity ]).
Qed.

Section Envelope.

Variables (u : Update.t) (usr : User.t) (c : Chat.t) (m : Message.t)
          (wad : WebAppData.t).
Hypothesis inbound : InboundEvent u usr c m wad.
Variable d : pyval.

(** C8. The envelope builder is total on inbound events: whatever optional
    fields are absent and whatever the parsed payload is, [format_payload]
    returns an envelope and raises nothing.  It takes the payload already
    parsed: parsing is the caller's. *)
Theorem format_payload_total :
  exists env, format_payload u d = Ok env.
Proof.
  apply format_payload_returns_iff.
  destruct inbound as [_ Hm Hu Hc _ _].
  rewrite Hm, Hu, Hc. repeat split; discriminate.
Qed.

(** C1. On an inbound event, the envelope has the event's [update_id], the
    message's id and text, the ISO-8601 string of the message's date, and
    the attachment type "OtherOrNone". *)
Theorem format_payload_fields :
  exists env,
    format_payload u d = Ok env
    /\ getpath env ["update_id"] = Ok (PInt (Update.update_id u))
    /\ getpath env ["message"; "message_id"]
       = Ok (PInt (Message.message_id m))
    /\ getpath env ["message"; "text"] = Ok (of_opt_str (Message.text m))
    /\ getpath env ["message"; "date"]
       = Ok (PStr (Datetime.isoformat (Message.date m)))
    /\ getpath env ["message"; "attachment"; "type"]
       = Ok (PStr "OtherOrNone").
Proof.
  destruct inbound as [_ Hm Hu Hc _ _].
  unfold format_payload. rewrite Hm, Hu, Hc.
  eexists. split; [reflexivity |].
  repeat split; reflexivity.
Qed.

(** C6. On an inbound event, the envelope has the same keys, in the same
    order, whatever optional fields the event carries; an optional field
    that is missing ([last_name], [username], [language_code] of the user,
    the three names of the chat, the [text] of the message) stays in the
    envelope under its key, with the value [None], serialised as [null]. *)
Theorem format_payload_keys :
  exists env,
    format_payload u d = Ok env
    /\ keys_at env [] = Ok ["update_id"; "message"]
    /\ keys_at env ["message"]
       = Ok ["message_id"; "from"; "chat"; "date"; "text"; "attachment";
             "web_app_data"]
    /\ keys_at env ["message"; "from"]
       = Ok ["id"; "is_bot"; "first_name"; "last_name"; "username";
             "language_code"]
    /\ keys_at env ["message"; "chat"]
       = Ok ["id"; "first_name"; "last_name"; "username"; "type"]
    /\ keys_at env ["message"; "attachment"] = Ok ["type"]
    /\ holds_optional env ["message"; "from"; "last_name"]
         (User.last_name usr)
    /\ holds_optional env ["message"; "from"; "username"]
         (User.username usr)
    /\ holds_optional env ["message"; "from"; "language_code"]
         (User.language_code usr)
    /\ holds_optional env ["message"; "chat"; "first_name"]
         (Chat.first_name c)
    /\ holds_optional env ["message"; "chat"; "last_name"]
         (Chat.last_name c)
    /\ holds_optional env ["message"; "chat"; "username"]
         (Chat.username c)
    /\ holds_optional env ["message"; "text"] (Message.text m).
Proof.
  destruct inbound as [_ Hm Hu Hc _ _].
  unfold format_payload. rewrite Hm, Hu, Hc.
  eexists. split; [reflexivity |].
  repeat match goal with |- _ /\ _ => split end;
    try reflexivity; unfold holds_optional;
    match goal with
    | |- match ?field with _ => _ end => destruct field
    end; repeat split; reflexivity.
Qed.

End Envelope.

(** [format_payload] depends on the update through the fields it reads
    only. *)
Lemma format_payload_reads (u1 u2 : Update.t) (d : pyval) :
  same_fields_read u1 u2 -> format_payload u1 d = format_payload u2 d.
Proof.
  intros (Hid & Hu & Hc & Hm). unfold format_payload.
  rewrite Hid, Hu, Hc.
  destruct (Update.effective_message u1) as [m1 |],
           (Update.effective_message u2) as [m2 |];
    cbn in Hm; try discriminate Hm; [| reflexivity].
  injection Hm as Hmid Hdate Htext.
  cbn. rewrite Hmid, Hdate, Htext. reflexivity.
Qed.

(** C7. [format_payload] is deterministic: two calls with the same event and
    the same parsed payload give the same result, and the envelopes
    serialise to the same JSON text.  The event counts through the fields
    read only; and the date string of the envelope is a function of the
    message's date alone: two events whose messages bear the same date give
    the same string, whatever else differs. *)
Theorem format_payload_deterministic (u1 u2 : Update.t) (d1 d2 : pyval) :
  (same_fields_read u1 u2 ->
   d1 = d2 ->
   format_payload u1 d1 = format_payload u2 d2
   /\ serialized (format_payload u1 d1) = serialized (format_payload u2 d2))
  /\ (forall m1 m2 env1 env2,
        Update.effective_message u1 = Some m1 ->
        Update.effective_message u2 = Some m2 ->
        Message.date m1 = Message.date m2 ->
        format_payload u1 d1 = Ok env1 ->
        format_payload u2 d2 = Ok env2 ->
        getpath env1 ["message"; "date"] = getpath env2 ["message"; "date"]).
Proof.
  split.
  - intros Hsame <-.
    rewrite (format_payload_reads u1 u2 d1 Hsame). split; reflexivity.
  - intros m1 m2 env1 env2 Hm1 Hm2 Hdate.
    unfold format_payload. rewrite Hm1, Hm2.
    destruct (Update.effective_user u1) as [usr1 |],
             (Update.effective_chat u1) as [c1 |],
             (Update.effective_user u2) as [usr2 |],
             (Update.effective_chat u2) as [c2 |]; cbn; try discriminate.
    intros [= <-] [= <-]. cbn. rewrite Hdate. reflexivity.
Qed.

Lemma format_payload_deterministic_witness :
  same_fields_read Scenario.update Scenario.update_not_json
  /\ format_payload Scenario.update Scenario.parsed
     = format_payload Scenario.update_not_json Scenario.parsed
  /\ serialized (format_payload Scenario.update Scenario.parsed)
     = serialized (format_payload Scenario.update_not_json Scenario.parsed).
Proof.
  assert (Hsame : same_fields_read Scenario.update Scenario.update_not_json)
    by (repeat split; reflexivity).
  split; [exact Hsame |].
  exact (proj1 (format_payload_deterministic Scenario.update
                  Scenario.update_not_json Scenario.parsed Scenario.parsed)
           Hsame eq_refl).
Defined.

(** ** The envelope builder on the scenarios *)

Lemma format_payload_total_witness :
  InboundEvent Scenario.bare_update Scenario.nobody Scenario.private_chat
    Scenario.bare_submission (Scenario.submitted Scenario.choice_A)
  /\ exists env, format_payload Scenario.bare_update Scenario.parsed = Ok env.
Proof.
  assert (H : InboundEvent Scenario.bare_update Scenario.nobody
                Scenario.private_chat Scenario.bare_submission
                (Scenario.submitted Scenario.choice_A))
    by (constructor; reflexivity).
  split; [exact H |].
  exact (format_payload_total _ _ _ _ _ H Scenario.parsed).
Defined.

Lemma format_payload_fields_witness :
  InboundEvent Scenario.update Scenario.ann Scenario.private_chat
    (Scenario.submission Scenario.choice_A)
    (Scenario.submitted Scenario.choice_A)
  /\ exists env,
       format_payload Scenario.update Scenario.parsed = Ok env
       /\ getpath env ["update_id"] = Ok (PInt 42)
       /\ getpath env ["message"; "message_id"] = Ok (PInt 5)
       /\ getpath env ["message"; "text"] = Ok (PStr "hello")
       /\ getpath env ["message"; "date"] = Ok (PStr "2024-01-01T00:00:00")
       /\ getpath env ["message"; "attachment"; "type"]
          = Ok (PStr "OtherOrNone").
Proof.
  assert (H : InboundEvent Scenario.update Scenario.ann Scenario.private_chat
    (Scenario.submission Scenario.choice_A)
    (Scenario.submitted Scenario.choice_A))
    by (constructor; reflexivity).
  split; [exact H |].
  exact (format_payload_fields _ _ _ _ _ H Scenario.parsed).
Defined.

Lemma format_payload_keys_witness :
  InboundEvent Scenario.bare_update Scenario.nobody Scenario.private_chat
    Scenario.bare_submission (Scenario.submitted Scenario.choice_A)
  /\ exists env,
       format_payload Scenario.bare_update Scenario.parsed = Ok env
       /\ keys_at env ["message"; "from"]
          = Ok ["id"; "is_bot"; "first_name"; "last_name"; "username";
                "language_code"]
       /\ getpath env ["message"; "from"; "last_name"] = Ok PNone
       /\ getpath env ["message"; "text"] = Ok PNone.
Proof.
  assert (H : InboundEvent Scenario.bare_update Scenario.nobody
                Scenario.private_chat Scenario.bare_submission
                (Scenario.submitted Scenario.choice_A))
    by (constructor; reflexivity).
  split; [exact H |].
  destruct (format_payload_keys _ _ _ _ _ H Scenario.parsed)
    as (env & Henv & _ & _ & Hfrom & _ & _ & Hlast & _ & _ & _ & _ & _
        & Htext).
  exists env. repeat split; [exact Henv | exact Hfrom | |].
  - exact (proj1 Hlast).
  - exact (proj1 Htext).
Defined.

(* ================================================================== *)
(** * The handler *)

(** The confirmation text is defined on every envelope [format_payload]
    builds: each key the f-string reads is there. *)
Lemma response_message_defined (u : Update.t) (d env : pyval) :
  format_payload u d = Ok env -> exists text, response_message env = Ok text.
Proof.
  unfold format_payload.
  destruct (Update.effective_message u) as [m |],
           (Update.effective_user u) as [usr |],
           (Update.effective_chat u) as [c |]; cbn; try discriminate.
  intros [= <-]. eexists. reflexivity.
Qed.

Section Handler.

Variables (u : Update.t) (usr : User.t) (c : Chat.t) (m : Message.t)
          (wad : WebAppData.t) (w : World.t).
Hypothesis inbound : InboundEvent u usr c m wad.

(** On an inbound event the envelope is built. *)
Lemma format_payload_returns (d : pyval) :
  exists env, format_payload u d = Ok env.
Proof.
  apply format_payload_returns_iff.
  destruct inbound as [_ Hm Hu Hc _ _].
  rewrite Hm, Hu, Hc. repeat split; discriminate.
Qed.

(** The [try] block on a payload that parses: the log record of the payload,
    the forwarding, the confirmation; its result is that of the
    confirmation. *)
Lemma try_parsed (d env : pyval) (text : string) :
  World.json_loads w (WebAppData.data wad) = Ok d ->
  format_payload u d = Ok env ->
  response_message env = Ok text ->
  web_app_data_try u w
  = (World.send_message w (Chat.id c) text (Some "HTML")
       (Some ReplyKeyboardRemove),
     ([Log INFO ("Received WebApp data: " ++ Json.dumps (Some 2%nat) d)]
        ++ effects (send_to_webhook env) w
        ++ [SendMessage (Chat.id c) text (Some "HTML")
              (Some ReplyKeyboardRemove)])%list).
Proof.
  intros Hd Henv Htext.
  destruct inbound as [Hmsg Hem Hu Hc Hor Hwad].
  unfold web_app_data_try.
  rewrite Hem. cbn [getattr]. rewrite bind_lift_ok.
  rewrite Hwad. cbn [getattr]. rewrite bind_lift_ok.
  rewrite (bind_ok _ _ w d []) by (unfold json_loads; rewrite Hd; reflexivity).
  rewrite (bind_ok _ _ w tt _ (eq_refl : logger_info _ w = (Ok tt, _))).
  rewrite Henv, bind_lift_ok.
  rewrite (bind_ok _ _ w tt _ (send_to_webhook_run env w)).
  rewrite Htext, bind_lift_ok.
  rewrite Hmsg. cbn [getattr]. rewrite bind_lift_ok.
  unfold reply_html, send_message, effects. rewrite Hor, send_to_webhook_run.
  reflexivity.
Qed.

(** The [try] block on a payload [json.loads] refuses: it stops there. *)
Lemma try_unparsed (e : exn) :
  World.json_loads w (WebAppData.data wad) = Raise e ->
  web_app_data_try u w = (Raise e, []).
Proof.
  intros Hd.
  destruct inbound as [Hmsg Hem Hu Hc Hor Hwad].
  unfold web_app_data_try.
  rewrite Hem. cbn [getattr]. rewrite bind_lift_ok.
  rewrite Hwad. cbn [getattr]. rewrite bind_lift_ok.
  apply bind_raise. unfold json_loads. rewrite Hd. reflexivity.
Qed.

(** The [except] block: the error log record, then the generic reply. *)
Lemma except_run (e : exn) :
  web_app_data_except u e w
  = (World.send_message w (Chat.id c) generic_failure None None,
     [Log ERROR ("Error handling WebApp data: " ++ exn_str e);
      SendMessage (Chat.id c) generic_failure None None]).
Proof.
  destruct inbound as [Hmsg Hem Hu Hc Hor Hwad].
  unfold web_app_data_except.
  rewrite (bind_ok _ _ w tt _ (eq_refl : logger_error _ w = (Ok tt, _))).
  rewrite Hmsg. cbn [getattr]. rewrite bind_lift_ok.
  unfold reply_text, send_message. rewrite Hor. reflexivity.
Qed.


(** C2, amended.  On an inbound event whose payload [json.loads] rejects,
    the [try] block stops at [json.loads], before any envelope is built;
    the handler logs the error and sends the generic failure message to
    the chat, and that is all it does: no POST is made. *)
Theorem bad_payload_not_forwarded (e : exn) :
  World.json_loads w (WebAppData.data wad) = Raise e ->
  web_app_data_try u w = (Raise e, [])
  /\ effects (web_app_data u) w
     = [Log ERROR ("Error handling WebApp data: " ++ exn_str e);
        SendMessage (Chat.id c) generic_failure None None]
  /\ existsb is_post (effects (web_app_data u) w) = false
  /\ outcome (web_app_data u) w
     = World.send_message w (Chat.id c) generic_failure None None.
Proof.
  intros Hd. pose proof (try_unparsed e Hd) as Htry.
  unfold effects, outcome, web_app_data.
  rewrite (try_except_raise _ _ w e [] Htry), except_run.
  repeat split; trivial.
Qed.

(** C4. On an inbound event whose payload parses, in every world, whatever
    the POST answers or raises, the handler sends the confirmation summary
    to the originating chat, after the forwarding, as an HTML message that
    removes the reply keyboard. *)
Theorem confirmation_sent (d : pyval) :
  World.json_loads w (WebAppData.data wad) = Ok d ->
  exists env text rest,
    format_payload u d = Ok env
    /\ response_message env = Ok text
    /\ effects (web_app_data u) w
       = ([Log INFO ("Received WebApp data: " ++ Json.dumps (Some 2%nat) d)]
            ++ effects (send_to_webhook env) w
            ++ SendMessage (Chat.id c) text (Some "HTML")
                 (Some ReplyKeyboardRemove) :: rest)%list.
Proof.
  intros Hd.
  destruct (format_payload_returns d) as [env Henv].
  destruct (response_message_defined u d env Henv) as [text Htext].
  pose proof (try_parsed d env text Hd Henv Htext) as Htry.
  exists env, text.
  unfold effects at 1. unfold web_app_data.
  destruct (World.send_message w (Chat.id c) text (Some "HTML")
              (Some ReplyKeyboardRemove)) as [[] | e].
  - exists []. rewrite (try_except_ok _ _ w tt _ Htry). auto.
  - eexists. rewrite (try_except_raise _ _ w e _ Htry).
    cbn [snd]. rewrite <- !app_assoc. cbn [app]. auto.
Qed.

(** C10. When the [try] block raises after the POST has been made, it is the
    confirmation that raised: the handler then logs the error and sends the
    generic failure message.  The POST stays made: nothing after it calls
    the webhook again, and the reply is the same fixed text as for any
    other failure. *)
Theorem failure_after_forwarding (e : exn) (t : trace) :
  web_app_data_try u w = (Raise e, t) ->
  existsb is_post t = true ->
  exists d env text,
    World.json_loads w (WebAppData.data wad) = Ok d
    /\ format_payload u d = Ok env
    /\ response_message env = Ok text
    /\ World.send_message w (Chat.id c) text (Some "HTML")
         (Some ReplyKeyboardRemove) = Raise e
    /\ effects (web_app_data u) w
       = [Log INFO ("Received WebApp data: " ++ Json.dumps (Some 2%nat) d);
          Log INFO (sending_prefix ++ Json.dumps (Some 2%nat) env);
          HttpPost (World.webhook_url w)
            [("Content-Type", "application/json")] env;
          outcome_record w env;
          SendMessage (Chat.id c) text (Some "HTML")
            (Some ReplyKeyboardRemove);
          Log ERROR ("Error handling WebApp data: " ++ exn_str e);
          SendMessage (Chat.id c) generic_failure None None]
    /\ outcome (web_app_data u) w
       = World.send_message w (Chat.id c) generic_failure None None.
Proof.
  intros Htry Hpost.
  destruct (World.json_loads w (WebAppData.data wad)) as [d | e0] eqn:Hd.
  - destruct (format_payload_returns d) as [env Henv].
    destruct (response_message_defined u d env Henv) as [text Htext].
    pose proof (try_parsed d env text Hd Henv Htext) as Hrun.
    rewrite Htry in Hrun. injection Hrun as Hsend Ht.
    exists d, env, text.
    repeat match goal with |- _ /\ _ => split end; auto.
    + unfold effects, web_app_data.
      rewrite (try_except_raise _ _ w e t Htry), except_run.
      rewrite Ht. unfold effects. rewrite send_to_webhook_run. reflexivity.
    + unfold outcome, web_app_data.
      rewrite (try_except_raise _ _ w e t Htry), except_run. reflexivity.
  - rewrite (try_unparsed e0 Hd) in Htry. injection Htry as _ <-.
    discriminate Hpost.
Qed.

(** C5, amended.  On an inbound event, an exception raised in
    the [try] block is caught, logged and answered with the generic failure
    message; the handler returns what sending that message returns.  So no
    exception escapes when the failure message can be sent; one raised by
    sending the failure message itself does. *)
Theorem handler_catches :
  (forall t, web_app_data_try u w = (Ok tt, t) ->
             web_app_data u w = (Ok tt, t))
  /\ (forall e t,
        web_app_data_try u w = (Raise e, t) ->
        web_app_data u w
        = (World.send_message w (Chat.id c) generic_failure None None,
           (t ++ [Log ERROR ("Error handling WebApp data: " ++ exn_str e);
                  SendMessage (Chat.id c) generic_failure None None])%list))
  /\ (World.send_message w (Chat.id c) generic_failure None None = Ok tt ->
      outcome (web_app_data u) w = Ok tt).
Proof.
  split; [| split].
  - intros t Htry. unfold web_app_data. now apply try_except_ok.
  - intros e t Htry. unfold web_app_data.
    rewrite (try_except_raise _ _ w e t Htry), except_run. reflexivity.
  - intros Hreply. unfold outcome, web_app_data.
    destruct (web_app_data_try u w) as [[[] | e] t] eqn:Htry.
    + rewrite (try_except_ok _ _ w tt t Htry). reflexivity.
    + rewrite (try_except_raise _ _ w e t Htry), except_run. exact Hreply.
Qed.

End Handler.

(** ** The handler on the scenarios *)

Lemma bad_payload_not_forwarded_witness :
  InboundEvent Scenario.update_not_json Scenario.ann Scenario.private_chat
    (Scenario.submission "not-json") (Scenario.submitted "not-json")
  /\ World.json_loads (Scenario.answering 200) "not-json"
     = Raise (Exception "JSONDecodeError"
                "Expecting value: line 1 column 1 (char 0)")
  /\ effects (web_app_data Scenario.update_not_json) (Scenario.answering 200)
     = [Log ERROR
          "Error handling WebApp data: Expecting value: line 1 column 1 (char 0)";
        SendMessage 1 generic_failure None None]
  /\ existsb is_post
       (effects (web_app_data Scenario.update_not_json)
          (Scenario.answering 200)) = false.
Proof.
  assert (H : InboundEvent Scenario.update_not_json Scenario.ann
                Scenario.private_chat (Scenario.submission "not-json")
                (Scenario.submitted "not-json"))
    by (constructor; reflexivity).
  split; [exact H |]. split; [reflexivity |].
  destruct (bad_payload_not_forwarded _ _ _ _ _ (Scenario.answering 200) H
              (Exception "JSONDecodeError"
                 "Expecting value: line 1 column 1 (char 0)") eq_refl)
    as (_ & Heffects & Hpost & _).
  split; [exact Heffects | exact Hpost].
Defined.

(** C2 fails as stated: the text [NaN] is not valid JSON, yet [json.loads]
    reads it as a float; the handler then builds the envelope, calls
    [requests.post] with it and sends the confirmation, not the failure
    message. *)
Lemma not_json_payload_forwarded :
  InboundEvent Lenient.update Scenario.ann Scenario.private_chat
    (Scenario.submission Lenient.text) (Scenario.submitted Lenient.text)
  /\ Rfc8259.may_be_json Lenient.text = false
  /\ World.json_loads Lenient.world Lenient.text = Ok (PFloat "nan")
  /\ exists env text,
       format_payload Lenient.update (PFloat "nan") = Ok env
       /\ response_message env = Ok text
       /\ posts (effects (web_app_data Lenient.update) Lenient.world)
          = [HttpPost Scenario.url json_headers env]
       /\ messages (effects (web_app_data Lenient.update) Lenient.world)
          = [SendMessage 1 text (Some "HTML") (Some ReplyKeyboardRemove)]
       /\ outcome (web_app_data Lenient.update) Lenient.world = Ok tt.
Proof.
  split; [constructor; reflexivity |].
  split; [reflexivity |]. split; [reflexivity |].
  eexists. eexists.
  split; [reflexivity |]. split; [reflexivity |].
  repeat split; reflexivity.
Qed.

Lemma confirmation_sent_witness :
  InboundEvent Scenario.update Scenario.ann Scenario.private_chat
    (Scenario.submission Scenario.choice_A)
    (Scenario.submitted Scenario.choice_A)
  /\ World.json_loads Scenario.unreachable Scenario.choice_A
     = Ok Scenario.parsed
  /\ exists env text rest,
       format_payload Scenario.update Scenario.parsed = Ok env
       /\ response_message env = Ok text
       /\ effects (web_app_data Scenario.update) Scenario.unreachable
          = ([Log INFO ("Received WebApp data: "
                        ++ Json.dumps (Some 2%nat) Scenario.parsed)]
               ++ effects (send_to_webhook env) Scenario.unreachable
               ++ SendMessage 1 text (Some "HTML")
                    (Some ReplyKeyboardRemove) :: rest)%list.
Proof.
  assert (H : InboundEvent Scenario.update Scenario.ann Scenario.private_chat
    (Scenario.submission Scenario.choice_A)
    (Scenario.submitted Scenario.choice_A))
    by (constructor; reflexivity).
  split; [exact H |]. split; [reflexivity |].
  exact (confirmation_sent _ _ _ _ _ Scenario.unreachable H Scenario.parsed
           eq_refl).
Defined.

Lemma failure_after_forwarding_witness :
  InboundEvent Scenario.update Scenario.ann Scenario.private_chat
    (Scenario.submission Scenario.choice_A)
    (Scenario.submitted Scenario.choice_A)
  /\ web_app_data_try Scenario.update Scenario.html_refused
     = (Raise (Exception "BadRequest" "can't parse entities"),
        effects (web_app_data_try Scenario.update) Scenario.html_refused)
  /\ existsb is_post
       (effects (web_app_data_try Scenario.update) Scenario.html_refused)
     = true
  /\ exists env text,
       format_payload Scenario.update Scenario.parsed = Ok env
       /\ response_message env = Ok text
       /\ effects (web_app_data Scenario.update) Scenario.html_refused
          = [Log INFO ("Received WebApp data: "
                       ++ Json.dumps (Some 2%nat) Scenario.parsed);
             Log INFO (sending_prefix ++ Json.dumps (Some 2%nat) env);
             HttpPost Scenario.url [("Content-Type", "application/json")] env;
             Log INFO sent_ok;
             SendMessage 1 text (Some "HTML") (Some ReplyKeyboardRemove);
             Log ERROR "Error handling WebApp data: can't parse entities";
             SendMessage 1 generic_failure None None]
       /\ outcome (web_app_data Scenario.update) Scenario.html_refused
          = Ok tt.
Proof.
  assert (H : InboundEvent Scenario.update Scenario.ann Scenario.private_chat
    (Scenario.submission Scenario.choice_A)
    (Scenario.submitted Scenario.choice_A))
    by (constructor; reflexivity).
  split; [exact H |]. split; [reflexivity |]. split; [reflexivity |].
  destruct (failure_after_forwarding _ _ _ _ _ Scenario.html_refused H
              (Exception "BadRequest" "can't parse entities")
              (effects (web_app_data_try Scenario.update)
                 Scenario.html_refused)
              eq_refl eq_refl)
    as (d & env & text & Hd & Henv & Htext & _ & Heffects & Hout).
  injection Hd as <-.
  exists env, text.
  split; [exact Henv |]. split; [exact Htext |].
  split; [exact Heffects | exact Hout].
Defined.

Lemma handler_catches_witness :
  InboundEvent Scenario.update_not_json Scenario.ann Scenario.private_chat
    (Scenario.submission "not-json") (Scenario.submitted "not-json")
  /\ World.send_message (Scenario.answering 200) 1 generic_failure None None
     = Ok tt
  /\ outcome (web_app_data Scenario.update_not_json) (Scenario.answering 200)
     = Ok tt.
Proof.
  assert (H : InboundEvent Scenario.update_not_json Scenario.ann
                Scenario.private_chat (Scenario.submission "not-json")
                (Scenario.submitted "not-json"))
    by (constructor; reflexivity).
  split; [exact H |]. split; [reflexivity |].
  exact (proj2 (proj2 (handler_catches _ _ _ _ _ (Scenario.answering 200) H))
           eq_refl).
Defined.

(** C5 fails as stated: when Telegram refuses every message, the
    confirmation raises, is caught and logged, and the generic failure
    message raises in its turn, out of the handler. *)
Lemma handler_exception_escapes :
  InboundEvent Scenario.update Scenario.ann Scenario.private_chat
    (Scenario.submission Scenario.choice_A)
    (Scenario.submitted Scenario.choice_A)
  /\ web_app_data_try Scenario.update Scenario.telegram_down
     = (Raise (Exception "NetworkError" "timed out"),
        effects (web_app_data_try Scenario.update) Scenario.telegram_down)
  /\ outcome (web_app_data Scenario.update) Scenario.telegram_down
     = Raise (Exception "NetworkError" "timed out").
Proof.
  split; [constructor; reflexivity |]. split; reflexivity.
Qed.

(* ================================================================== *)
(** * The handler does not see the forwarding *)

Create HintDb blind.

Lemma blind_lift {A : Type} (r : result A) : post_blind (lift r).
Proof. intros w w' _. split; reflexivity. Qed.

Lemma blind_logger_info (s : string) : post_blind (logger_info s).
Proof. intros w w' _. split; reflexivity. Qed.

Lemma blind_logger_error (s : string) : post_blind (logger_error s).
Proof. intros w w' _. split; reflexivity. Qed.

Lemma blind_json_loads (s : string) : post_blind (json_loads s).
Proof.
  intros w w' (_ & Hloads & _). unfold outcome, effects, json_loads.
  cbn. rewrite Hloads. split; reflexivity.
Qed.

Lemma blind_send_message (chat_id : Z) (text : string) (mode : option string)
    (markup : option reply_markup) :
  post_blind (send_message chat_id text mode markup).
Proof.
  intros w w' (_ & _ & Hsend). unfold outcome, effects, send_message.
  cbn. rewrite Hsend. split; reflexivity.
Qed.

Lemma outcome_record_is_log (w : World.t) (payload : pyval) :
  is_log (outcome_record w payload) = true.
Proof.
  unfold outcome_record.
  destruct (World.requests_post w _ _ _) as [r | e]; [| reflexivity].
  destruct (Response.status_code r =? 200); reflexivity.
Qed.

Lemma blind_send_to_webhook (payload : pyval) :
  post_blind (send_to_webhook payload).
Proof.
  intros w w' (Hurl & _ & _). unfold outcome, effects.
  rewrite !send_to_webhook_run, Hurl. cbn [fst snd]. split; [reflexivity |].
  unfold calls. cbn [filter is_log negb].
  rewrite !outcome_record_is_log. reflexivity.
Qed.

Lemma blind_bind {A B : Type} (c : M A) (k : A -> M B) :
  post_blind c -> (forall a, post_blind (k a)) -> post_blind (bind c k).
Proof.
  intros Hc Hk w w' Hw. destruct (Hc w w' Hw) as [Hr Ht].
  unfold outcome, effects in *. cbn.
  destruct (c w) as [[a | e] t], (c w') as [[a' | e'] t'];
    cbn [fst snd] in Hr, Ht; try discriminate Hr.
  - injection Hr as <-. destruct (Hk a w w' Hw) as [Hr2 Ht2].
    unfold outcome, effects in Hr2, Ht2.
    destruct (k a w) as [r2 t2], (k a w') as [r2' t2']. cbn [fst snd] in *.
    unfold calls in *. rewrite !filter_app, Ht, Ht2, Hr2. split; reflexivity.
  - injection Hr as <-. split; [reflexivity | exact Ht].
Qed.

Lemma blind_try_except {A : Type} (body : M A) (handler : exn -> M A) :
  post_blind body -> (forall e, post_blind (handler e)) ->
  post_blind (try_except body handler).
Proof.
  intros Hb Hh w w' Hw. destruct (Hb w w' Hw) as [Hr Ht].
  unfold outcome, effects, try_except in *.
  destruct (body w) as [[a | e] t], (body w') as [[a' | e'] t'];
    cbn [fst snd] in Hr, Ht; try discriminate Hr.
  - split; assumption.
  - injection Hr as <-. destruct (Hh e w w' Hw) as [Hr2 Ht2].
    unfold outcome, effects in Hr2, Ht2.
    destruct (handler e w) as [r2 t2], (handler e w') as [r2' t2'].
    cbn [fst snd] in *.
    unfold calls in *. rewrite !filter_app, Ht, Ht2, Hr2. split; reflexivity.
Qed.

#[local] Hint Resolve blind_lift blind_logger_info blind_logger_error
  blind_json_loads blind_send_message blind_send_to_webhook : blind.

Ltac blind_steps :=
  repeat (apply blind_bind; [auto with blind | intro]); auto with blind.

Lemma blind_web_app_data (u : Update.t) : post_blind (web_app_data u).
Proof.
  apply blind_try_except.
  - unfold web_app_data_try, reply_html. blind_steps.
  - intro e. unfold web_app_data_except, reply_text. blind_steps.
Qed.

(** C9. For every envelope and every outcome of the POST (200, another
    status, an exception), [send_to_webhook] returns [None].  The outcome
    does not reach the caller: in two worlds that differ in what the POST
    answers only, the handler returns the same result and makes the same
    calls. *)
Theorem send_to_webhook_returns_none (payload : pyval) (u : Update.t)
    (w w' : World.t) :
  outcome (send_to_webhook payload) w = Ok tt
  /\ (same_but_post w w' ->
      outcome (web_app_data u) w = outcome (web_app_data u) w'
      /\ calls (effects (web_app_data u) w)
         = calls (effects (web_app_data u) w')).
Proof.
  split.
  - unfold outcome. rewrite send_to_webhook_run. reflexivity.
  - apply blind_web_app_data.
Qed.

Lemma send_to_webhook_returns_none_witness :
  same_but_post (Scenario.answering 200) Scenario.unreachable
  /\ outcome (send_to_webhook Scenario.parsed) (Scenario.answering 200)
     = Ok tt
  /\ outcome (web_app_data Scenario.update) (Scenario.answering 200)
     = outcome (web_app_data Scenario.update) Scenario.unreachable
  /\ calls (effects (web_app_data Scenario.update) (Scenario.answering 200))
     = calls (effects (web_app_data Scenario.update) Scenario.unreachable).
Proof.
  assert (Hw : same_but_post (Scenario.answering 200) Scenario.unreachable)
    by (repeat split; reflexivity).
  split; [exact Hw |].
  destruct (send_to_webhook_returns_none Scenario.parsed Scenario.update
              (Scenario.answering 200) Scenario.unreachable) as [Hnone Hblind].
  split; [exact Hnone | exact (Hblind Hw)].
Defined.

(* ================================================================== *)
(** * More on running the monad *)

Lemma bind_lift_raise_run {A B : Type} (e : exn) (k : A -> M B)
    (w : World.t) :
  bind (lift (Raise e)) k w = (Raise e, []).
Proof. reflexivity. Qed.

(* ================================================================== *)
(** * Every run of the handler *)

(** The [try] block stops in one of the six ways of [try_stops]. *)
Lemma web_app_data_try_stops (u : Update.t) (w : World.t) :
  try_stops u w (web_app_data_try u w).
Proof.
  unfold web_app_data_try.
  destruct (Update.effective_message u) as [em |] eqn:Hem; cbn [getattr];
    [| rewrite bind_lift_raise_run; now apply stops_no_message].
  rewrite bind_lift_ok.
  destruct (Message.web_app_data em) as [wad |] eqn:Hwad; cbn [getattr];
    [| rewrite bind_lift_raise_run; now apply stops_no_data with em].
  rewrite bind_lift_ok.
  destruct (World.json_loads w (WebAppData.data wad)) as [d | e] eqn:Hd.
  2:{ rewrite (bind_raise _ _ w e [])
        by (unfold json_loads; rewrite Hd; reflexivity).
      now apply stops_bad_json with em wad. }
  rewrite (bind_ok _ _ w d []) by (unfold json_loads; rewrite Hd; reflexivity).
  rewrite (bind_ok _ _ w tt _ (eq_refl : logger_info _ w = (Ok tt, _))).
  destruct (format_payload u d) as [env | e] eqn:Henv.
  2:{ rewrite bind_lift_raise_run. cbn [fst snd app].
      now apply stops_no_envelope with em wad. }
  rewrite bind_lift_ok.
  rewrite (bind_ok _ _ w tt _ (send_to_webhook_run env w)).
  destruct (response_message_defined u d env Henv) as [text Htext].
  rewrite Htext, bind_lift_ok.
  destruct (Update.message u) as [m |] eqn:Hm.
  - cbn [getattr]. rewrite bind_lift_ok.
    unfold reply_html, send_message. cbn [fst snd app].
    now apply stops_replied with em wad.
  - cbn [getattr]. rewrite bind_lift_raise_run. cbn [fst snd app].
    now apply stops_no_reply with em wad.
Qed.

(** The [except] block: the error log record, then the generic reply when
    the update has a message to reply to, an [AttributeError] when not. *)
Lemma web_app_data_except_run (u : Update.t) (e : exn) (w : World.t) :
  web_app_data_except u e w
  = match Update.message u with
    | Some m =>
        (World.send_message w (Chat.id (Message.chat m)) generic_failure
           None None,
         [handling_failed e; failure_reply m])
    | None => (Raise (attribute_error "reply_text"), [handling_failed e])
    end.
Proof.
  unfold web_app_data_except.
  rewrite (bind_ok _ _ w tt _ (eq_refl : logger_error _ w = (Ok tt, _))).
  destruct (Update.message u) as [m |]; cbn [getattr].
  - rewrite bind_lift_ok. reflexivity.
  - rewrite bind_lift_raise_run. reflexivity.
Qed.

(** The handler, from where its [try] block stops. *)
Lemma web_app_data_run (u : Update.t) (w : World.t) :
  web_app_data u w
  = match web_app_data_try u w with
    | (Ok a, t) => (Ok a, t)
    | (Raise e, t) =>
        match Update.message u with
        | Some m =>
            (World.send_message w (Chat.id (Message.chat m)) generic_failure
               None None,
             (t ++ [handling_failed e; failure_reply m])%list)
        | None =>
            (Raise (attribute_error "reply_text"),
             (t ++ [handling_failed e])%list)
        end
    end.
Proof.
  unfold web_app_data, try_except.
  destruct (web_app_data_try u w) as [[a | e] t]; [reflexivity |].
  rewrite web_app_data_except_run.
  destruct (Update.message u); reflexivity.
Qed.

(** The record that closes a forwarding attempt is a log record. *)
Lemma outcome_record_log (w : World.t) (payload : pyval) :
  exists lv msg, outcome_record w payload = Log lv msg.
Proof.
  unfold outcome_record.
  destruct (World.requests_post w _ _ _) as [r | e]; [| eauto].
  destruct (Response.status_code r =? 200); eauto.
Qed.

(** Case analysis on a run of the handler: where the [try] block stopped,
    whether the update has a message, what the world answered. *)
Ltac handler_cases u w :=
  unfold outcome, effects;
  rewrite (web_app_data_run u w);
  let Hstop := fresh "Hstop" in
  pose proof (web_app_data_try_stops u w) as Hstop;
  let run := fresh "run" in
  let Hrun := fresh "Hrun" in
  remember (web_app_data_try u w) as run eqn:Hrun;
  destruct Hstop; clear Hrun;
  unfold forwarding, received, handling_failed, failure_reply, confirmation
    in *;
  repeat match goal with
         | H : Update.message u = _ |- _ => rewrite H in *
         | |- context [outcome_record w ?env] =>
             let lv := fresh "lv" in
             let msg := fresh "msg" in
             let Hrec := fresh "Hrec" in
             destruct (outcome_record_log w env) as (lv & msg & Hrec);
             rewrite Hrec in *
         end.

(** X1. One call of [send_to_webhook] makes exactly one POST, whatever the
    webhook answers or raises: to the configured URL, with the JSON content
    type, the payload unchanged as its body; and it sends no message. *)
Theorem send_to_webhook_posts_once (payload : pyval) (w : World.t) :
  posts (effects (send_to_webhook payload) w)
  = [HttpPost (World.webhook_url w) json_headers payload]
  /\ messages (effects (send_to_webhook payload) w) = [].
Proof.
  unfold effects. rewrite send_to_webhook_run. cbn [snd].
  destruct (outcome_record_log w payload) as (lv & msg & ->).
  split; reflexivity.
Qed.

(** X2. [start] never logs and never calls the webhook.  On an update with
    a message it sends one message, to the chat of that message: the
    welcome text with the button that opens the configured web-app URL, and
    returns what the sending returns; on an update with no message it
    raises [AttributeError] and does nothing. *)
Theorem start_sends_the_button (u : Update.t) (w : World.t) :
  posts (effects (start u) w) = []
  /\ filter is_log (effects (start u) w) = []
  /\ start u w
     = match Update.message u with
       | Some m =>
           (World.send_message w (Chat.id (Message.chat m)) welcome None
              (Some (ReplyKeyboardMarkup_from_button "Service client"
                       (World.webapp_url w))),
            [SendMessage (Chat.id (Message.chat m)) welcome None
               (Some (ReplyKeyboardMarkup_from_button "Service client"
                        (World.webapp_url w)))])
       | None => (Raise (attribute_error "reply_text"), [])
       end.
Proof.
  unfold effects, start.
  rewrite (bind_ok _ _ w w [] (eq_refl : ask w = (Ok w, []))).
  destruct (Update.message u) as [m |]; cbn [getattr].
  - rewrite bind_lift_ok. repeat split.
  - rewrite bind_lift_raise_run. repeat split.
Qed.

(** X3. The handler posts an envelope exactly when the update has an
    effective message with web-app data, [json.loads] accepts the data and
    [format_payload] returns: the POST then goes to the configured URL with
    that envelope as its body.  In every other case nothing is posted. *)
Theorem web_app_data_posts_iff (u : Update.t) (w : World.t)
    (url : option string) (headers : list (string * string)) (env : pyval) :
  In (HttpPost url headers env) (effects (web_app_data u) w)
  <-> (url = World.webhook_url w
       /\ headers = json_headers
       /\ exists em wad d,
            Update.effective_message u = Some em
            /\ Message.web_app_data em = Some wad
            /\ World.json_loads w (WebAppData.data wad) = Ok d
            /\ format_payload u d = Ok env).
Proof.
  split.
  - handler_cases u w;
      try match goal with
          | |- context [match ?r with Ok _ => _ | Raise _ => _ end] =>
              destruct r as [[] |]
          end;
      try match goal with
          | |- context [match Update.message u with _ => _ end] =>
              destruct (Update.message u)
          end;
      cbn [snd app In]; intros Hin;
      repeat match goal with
             | H : _ \/ _ |- _ => destruct H
             | H : False |- _ => destruct H
             | H : Log _ _ = HttpPost _ _ _ |- _ => discriminate H
             | H : SendMessage _ _ _ _ = HttpPost _ _ _ |- _ => discriminate H
             | H : HttpPost _ _ _ = HttpPost _ _ _ |- _ =>
                 injection H as <- <- <-
             end;
      repeat split; eauto 8.
  - intros (-> & -> & em & wad & d & Hem & Hwad & Hd & Henv).
    handler_cases u w; try congruence;
      repeat match goal with
             | H1 : ?x = Some _, H2 : ?x = Some _ |- _ =>
                 rewrite H1 in H2; injection H2 as <-
             | H1 : ?x = Ok _, H2 : ?x = Ok _ |- _ =>
                 rewrite H1 in H2; injection H2 as <-
             end;
      try match goal with
          | |- context [match ?r with Ok _ => _ | Raise _ => _ end] =>
              destruct r as [[] |]
          end;
      cbn [snd app In]; auto 8.
Qed.

(** X4. In every run of the handler, on any update and in any world: at
    most one POST is made and at most two messages are sent; the POST comes
    before every message; and an HTML message (the confirmation) is sent
    only in a run that posted. *)
Theorem web_app_data_calls_in_order (u : Update.t) (w : World.t) :
  calls (effects (web_app_data u) w)
  = (posts (effects (web_app_data u) w)
       ++ messages (effects (web_app_data u) w))%list
  /\ (List.length (posts (effects (web_app_data u) w)) <= 1)%nat
  /\ (List.length (messages (effects (web_app_data u) w)) <= 2)%nat
  /\ (forall cid text markup,
        In (SendMessage cid text (Some "HTML") markup)
          (effects (web_app_data u) w) ->
        posts (effects (web_app_data u) w) <> []).
Proof.
  handler_cases u w;
    try match goal with
        | |- context [match ?r with Ok _ => _ | Raise _ => _ end] =>
            destruct r as [[] |]
        end;
    try match goal with
        | |- context [match Update.message u with _ => _ end] =>
            destruct (Update.message u)
        end;
    cbn [snd app calls posts messages filter is_log is_post is_send negb
         List.length In];
    (repeat split; [lia | lia |]);
    intros cid text' markup Hin;
    repeat match goal with
           | H : _ \/ _ |- _ => destruct H
           | H : False |- _ => destruct H
           | H : Log _ _ = SendMessage _ _ _ _ |- _ => discriminate H
           | H : HttpPost _ _ _ = SendMessage _ _ _ _ |- _ => discriminate H
           | H : SendMessage _ _ None _ = SendMessage _ _ (Some _) _ |- _ =>
               discriminate H
           end;
    discriminate.
Qed.

(** X5. On an update with no [message] (an edited message, a channel post)
    the handler never replies and always raises: whatever happened in the
    [try] block, in any world, the error path reads [reply_text] on [None],
    and the [AttributeError] leaves the handler. *)
Theorem web_app_data_without_message (u : Update.t) (w : World.t) :
  Update.message u = None ->
  outcome (web_app_data u) w = Raise (attribute_error "reply_text")
  /\ messages (effects (web_app_data u) w) = [].
Proof.
  intros Hm.
  handler_cases u w; try discriminate; split; reflexivity.
Qed.

Lemma web_app_data_without_message_witness :
  Update.message Edge.edited = None
  /\ outcome (web_app_data Edge.edited) (Scenario.answering 200)
     = Raise (attribute_error "reply_text")
  /\ messages (effects (web_app_data Edge.edited) (Scenario.answering 200))
     = [].
Proof.
  split; [reflexivity |].
  exact (web_app_data_without_message Edge.edited (Scenario.answering 200)
           eq_refl).
Defined.

(** X6. When the payload parses and [format_payload] raises (the update
    has no user, or no chat), nothing is forwarded: the handler logs the
    payload, logs the error with the exception's text, and sends the
    generic failure message. *)
Theorem envelope_failure_not_forwarded (u : Update.t) (m em : Message.t)
    (wad : WebAppData.t) (d : pyval) (e : exn) (w : World.t) :
  Update.message u = Some m ->
  Update.effective_message u = Some em ->
  Message.web_app_data em = Some wad ->
  World.json_loads w (WebAppData.data wad) = Ok d ->
  format_payload u d = Raise e ->
  web_app_data u w
  = (World.send_message w (Chat.id (Message.chat m)) generic_failure None None,
     [received d; handling_failed e; failure_reply m]).
Proof.
  intros Hm Hem Hwad Hd Henv.
  handler_cases u w; try congruence.
  match goal with
  | H1 : Update.effective_message u = Some ?a |- _ =>
      rewrite Hem in H1; injection H1 as <-
  end.
  match goal with
  | H1 : Message.web_app_data em = Some ?a |- _ =>
      rewrite Hwad in H1; injection H1 as <-
  end.
  match goal with
  | H1 : World.json_loads w _ = Ok ?a |- _ =>
      rewrite Hd in H1; injection H1 as <-
  end.
  match goal with
  | H1 : format_payload u d = Raise ?a |- _ =>
      rewrite Henv in H1; injection H1 as <-
  end.
  reflexivity.
Qed.

Lemma envelope_failure_not_forwarded_witness :
  Update.message Edge.anonymous = Some (Scenario.submission Scenario.choice_A)
  /\ format_payload Edge.anonymous Scenario.parsed
     = Raise (attribute_error "id")
  /\ web_app_data Edge.anonymous (Scenario.answering 200)
     = (Ok tt,
        [received Scenario.parsed;
         Log ERROR
           "Error handling WebApp data: 'NoneType' object has no attribute 'id'";
         SendMessage 1 generic_failure None None]).
Proof.
  split; [reflexivity |]. split; [reflexivity |].
  exact (envelope_failure_not_forwarded Edge.anonymous
           (Scenario.submission Scenario.choice_A)
           (Scenario.submission Scenario.choice_A)
           (Scenario.submitted Scenario.choice_A) Scenario.parsed
           (attribute_error "id") (Scenario.answering 200)
           eq_refl eq_refl eq_refl eq_refl eq_refl).
Defined.

(** X7. A confirmation that Telegram accepts ends the run: the handler
    returns normally and the confirmation is the only message it sent, so
    the user never gets both the confirmation and the failure message
    unless the confirmation itself was refused. *)
Theorem delivered_confirmation_is_final (u : Update.t) (w : World.t)
    (cid : Z) (text : string) (markup : option reply_markup) :
  In (SendMessage cid text (Some "HTML") markup)
    (effects (web_app_data u) w) ->
  World.send_message w cid text (Some "HTML") markup = Ok tt ->
  outcome (web_app_data u) w = Ok tt
  /\ messages (effects (web_app_data u) w)
     = [SendMessage cid text (Some "HTML") markup].
Proof.
  handler_cases u w;
    try match goal with
        | |- context [match Update.message u with _ => _ end] =>
            destruct (Update.message u)
        end;
    try match goal with
        | |- context [World.send_message w ?c ?t (Some ?mode) ?mk] =>
            destruct (World.send_message w c t (Some mode) mk) as [[] |] eqn:Hsent
        end;
    cbn [fst snd app In messages filter is_send];
    intros Hin Hok;
    repeat match goal with
           | H : _ \/ _ |- _ => destruct H
           | H : False |- _ => destruct H
           | H : Log _ _ = SendMessage _ _ _ _ |- _ => discriminate H
           | H : HttpPost _ _ _ = SendMessage _ _ _ _ |- _ => discriminate H
           | H : SendMessage _ _ None _ = SendMessage _ _ (Some _) _ |- _ =>
               discriminate H
           | H : SendMessage _ _ (Some _) _ = SendMessage _ _ (Some _) _ |- _ =>
               injection H as <- <- <-
           end;
    try congruence; split; reflexivity.
Qed.

Lemma delivered_confirmation_is_final_witness :
  exists text,
    In (SendMessage 1 text (Some "HTML") (Some ReplyKeyboardRemove))
      (effects (web_app_data Scenario.update) Scenario.unreachable)
    /\ World.send_message Scenario.unreachable 1 text (Some "HTML")
         (Some ReplyKeyboardRemove) = Ok tt
    /\ outcome (web_app_data Scenario.update) Scenario.unreachable = Ok tt
    /\ messages (effects (web_app_data Scenario.update) Scenario.unreachable)
       = [SendMessage 1 text (Some "HTML") (Some ReplyKeyboardRemove)].
Proof.
  eexists.
  assert (Hin : In (SendMessage 1 _ (Some "HTML") (Some ReplyKeyboardRemove))
                  (effects (web_app_data Scenario.update)
                     Scenario.unreachable))
    by (cbn; do 4 right; left; reflexivity).
  split; [exact Hin |]. split; [reflexivity |].
  exact (delivered_confirmation_is_final Scenario.update Scenario.unreachable
           1 _ (Some ReplyKeyboardRemove) Hin eq_refl).
Defined.

(* ================================================================== *)
(** * More on the envelope *)

Lemma of_opt_str_inj (o1 o2 : option string) :
  of_opt_str o1 = of_opt_str o2 -> o1 = o2.
Proof.
  destruct o1, o2; cbn; intros H; try discriminate H; congruence.
Qed.

(** X8. The envelope loses nothing of what [format_payload] reads: two
    calls that return the same envelope were given the same [update_id],
    the same user, the same chat, messages with the same id, text and date
    string, and the same payload. *)
Theorem format_payload_lossless (u1 u2 : Update.t) (d1 d2 env : pyval) :
  format_payload u1 d1 = Ok env ->
  format_payload u2 d2 = Ok env ->
  Update.update_id u1 = Update.update_id u2
  /\ Update.effective_user u1 = Update.effective_user u2
  /\ Update.effective_chat u1 = Update.effective_chat u2
  /\ option_map message_kept (Update.effective_message u1)
     = option_map message_kept (Update.effective_message u2)
  /\ d1 = d2.
Proof.
  unfold format_payload.
  destruct (Update.effective_message u1) as [m1 |],
           (Update.effective_user u1) as [usr1 |],
           (Update.effective_chat u1) as [c1 |];
    cbn [getattr bind result_monad ret]; try discriminate.
  destruct (Update.effective_message u2) as [m2 |],
           (Update.effective_user u2) as [usr2 |],
           (Update.effective_chat u2) as [c2 |];
    cbn [getattr bind result_monad ret]; try discriminate.
  intros [= <-] Heq.
  destruct usr1, usr2, c1, c2. cbn -[Datetime.isoformat] in Heq.
  injection Heq as Hid Hmid Huid Hbot Hfirst Hlast Huser Hlang
                   Hcid Hcfirst Hclast Hcuser Htype Hdate Htext Hd.
  apply of_opt_str_inj in Hlast, Huser, Hlang, Hcfirst, Hclast, Hcuser, Htext.
  unfold message_kept. cbn [option_map].
  repeat split; congruence.
Qed.

Lemma format_payload_lossless_witness :
  (exists env,
     format_payload Scenario.update Scenario.parsed = Ok env
     /\ format_payload Scenario.update_not_json Scenario.parsed = Ok env)
  /\ Update.effective_user Scenario.update
     = Update.effective_user Scenario.update_not_json
  /\ option_map message_kept (Update.effective_message Scenario.update)
     = option_map message_kept
         (Update.effective_message Scenario.update_not_json).
Proof.
  split; [eexists; split; reflexivity |].
  destruct (format_payload_lossless Scenario.update Scenario.update_not_json
              Scenario.parsed Scenario.parsed _ eq_refl eq_refl)
    as (_ & Huser & _ & Hkept & _).
  split; [exact Huser | exact Hkept].
Defined.

(** X9. The payload is put in the envelope as it is, whatever JSON value it
    is (an object or not), under [message.web_app_data], and touches
    nothing else: with another payload the envelope has the same
    [update_id], the same keys, and the same value under every other key of
    [message]. *)
Theorem format_payload_isolates_payload (u : Update.t) (d1 d2 env1 env2 : pyval) :
  format_payload u d1 = Ok env1 ->
  format_payload u d2 = Ok env2 ->
  getpath env1 ["message"; "web_app_data"] = Ok d1
  /\ getpath env1 ["update_id"] = getpath env2 ["update_id"]
  /\ keys_at env1 ["message"] = keys_at env2 ["message"]
  /\ (forall k, k <> "web_app_data" ->
                getpath env1 ["message"; k] = getpath env2 ["message"; k]).
Proof.
  unfold format_payload.
  destruct (Update.effective_message u) as [m |],
           (Update.effective_user u) as [usr |],
           (Update.effective_chat u) as [c |];
    cbn [getattr bind result_monad ret]; try discriminate.
  intros [= <-] [= <-]. repeat split.
  intros k Hk. apply String.eqb_neq in Hk.
  cbn -[Datetime.isoformat].
  repeat match goal with
         | |- context [String.eqb k ?lit] =>
             lazymatch lit with
             | "web_app_data" => rewrite Hk
             | _ => destruct (String.eqb k lit); [reflexivity |]
             end
         end.
  reflexivity.
Qed.

Lemma format_payload_isolates_payload_witness :
  (exists env1 env2,
     format_payload Scenario.update (PList [PInt 1; PInt 2]) = Ok env1
     /\ format_payload Scenario.update Scenario.parsed = Ok env2
     /\ getpath env1 ["message"; "web_app_data"] = Ok (PList [PInt 1; PInt 2])
     /\ getpath env1 ["message"; "from"] = getpath env2 ["message"; "from"]).
Proof.
  eexists. eexists.
  split; [reflexivity |]. split; [reflexivity |].
  destruct (format_payload_isolates_payload Scenario.update
              (PList [PInt 1; PInt 2]) Scenario.parsed _ _ eq_refl eq_refl)
    as (Hpayload & _ & _ & Hrest).
  split; [exact Hpayload |].
  apply Hrest. discriminate.
Defined.

(** X10. The only thing [format_payload] raises is the [AttributeError] of
    a missing object, never anything about the payload: on the message
    first (attribute [message_id]), then on the user, then on the chat
    (attribute [id] for both). *)
Theorem format_payload_raises (u : Update.t) (d : pyval) (e : exn) :
  format_payload u d = Raise e ->
  (Update.effective_message u = None /\ e = attribute_error "message_id")
  \/ (Update.effective_message u <> None
      /\ e = attribute_error "id"
      /\ (Update.effective_user u = None
          \/ Update.effective_chat u = None)).
Proof.
  unfold format_payload.
  destruct (Update.effective_message u) as [m |],
           (Update.effective_user u) as [usr |],
           (Update.effective_chat u) as [c |]; cbn;
    intros H; try discriminate H; injection H as <-;
    first [ left; split; reflexivity
          | right; repeat split; first [discriminate | auto] ].
Qed.

Lemma format_payload_raises_witness :
  format_payload Edge.empty Scenario.parsed
  = Raise (attribute_error "message_id")
  /\ format_payload Edge.anonymous Scenario.parsed
     = Raise (attribute_error "id")
  /\ Update.effective_user Edge.anonymous = None.
Proof.
  split; [reflexivity |]. split; [reflexivity |].
  destruct (format_payload_raises Edge.anonymous Scenario.parsed
              (attribute_error "id") eq_refl)
    as [[Hm _] | (_ & _ & [Hu | Hc])].
  - discriminate Hm.
  - exact Hu.
  - discriminate Hc.
Defined.

(** X11. The confirmation is defined on every envelope [format_payload]
    builds (no key the f-string reads is missing), and reads: the update
    id, the message id, the first name, the last name and the username of
    the user, the text, the attachment marker and the payload indented by
    two; a missing last name, username or text prints as the word [None]. *)
Theorem confirmation_text (u : Update.t) (usr : User.t) (m : Message.t)
    (d env : pyval) :
  Update.effective_user u = Some usr ->
  Update.effective_message u = Some m ->
  format_payload u d = Ok env ->
  response_message env
  = Ok ("Data received and sent to the webhook:" ++ newline ++ newline
        ++ "<b>Update ID:</b> " ++ str_int (Update.update_id u) ++ newline
        ++ "<b>Message ID:</b> " ++ str_int (Message.message_id m) ++ newline
        ++ "<b>From:</b> " ++ User.first_name usr ++ " "
        ++ or_None (User.last_name usr)
        ++ " (@" ++ or_None (User.username usr) ++ ")" ++ newline
        ++ "<b>Text:</b> " ++ or_None (Message.text m) ++ newline
        ++ "<b>Attachment Type:</b> OtherOrNone" ++ newline
        ++ "<b>WebApp Data:</b> " ++ Json.dumps (Some 2%nat) d ++ newline).
Proof.
  intros Hu Hm. unfold format_payload. rewrite Hu, Hm.
  destruct (Update.effective_chat u) as [c |]; cbn [getattr bind result_monad ret];
    [| discriminate].
  intros [= <-].
  destruct (User.last_name usr), (User.username usr), (Message.text m);
    reflexivity.
Qed.

Lemma confirmation_text_witness :
  exists env,
    format_payload Scenario.bare_update Scenario.parsed = Ok env
    /\ response_message env
       = Ok ("Data received and sent to the webhook:" ++ newline ++ newline
             ++ "<b>Update ID:</b> 43" ++ newline
             ++ "<b>Message ID:</b> 9" ++ newline
             ++ "<b>From:</b> Bo None (@None)" ++ newline
             ++ "<b>Text:</b> None" ++ newline
             ++ "<b>Attachment Type:</b> OtherOrNone" ++ newline
             ++ "<b>WebApp Data:</b> {" ++ newline
             ++ dquoted "  'choice': 'A'" ++ newline
             ++ "}" ++ newline).
Proof.
  eexists. split; [reflexivity |].
  exact (confirmation_text Scenario.bare_update Scenario.nobody
           Scenario.bare_submission Scenario.parsed _
           eq_refl eq_refl eq_refl).
Defined.

(** X12. What the user is shown is what was posted: whenever the handler
    sends the confirmation, it has posted an envelope before, and the
    confirmation is the summary of that very envelope. *)
Theorem confirmation_shows_posted_envelope (u : Update.t) (w : World.t)
    (cid : Z) (text : string) (markup : option reply_markup) :
  In (SendMessage cid text (Some "HTML") markup)
    (effects (web_app_data u) w) ->
  exists env before after,
    effects (web_app_data u) w
    = (before ++ HttpPost (World.webhook_url w) json_headers env :: after)%list
    /\ In (SendMessage cid text (Some "HTML") markup) after
    /\ response_message env = Ok text.
Proof.
  handler_cases u w;
    try match goal with
        | |- context [match Update.message u with _ => _ end] =>
            destruct (Update.message u)
        end;
    try match goal with
        | |- context [World.send_message w ?c ?t (Some ?mode) ?mk] =>
            destruct (World.send_message w c t (Some mode) mk) as [[] |]
        end;
    cbn [fst snd app In];
    intros Hin;
    repeat match goal with
           | H : _ \/ _ |- _ => destruct H
           | H : False |- _ => destruct H
           | H : Log _ _ = SendMessage _ _ _ _ |- _ => discriminate H
           | H : HttpPost _ _ _ = SendMessage _ _ _ _ |- _ => discriminate H
           | H : SendMessage _ _ None _ = SendMessage _ _ (Some _) _ |- _ =>
               discriminate H
           | H : SendMessage _ _ (Some _) _ = SendMessage _ _ (Some _) _ |- _ =>
               injection H as <- <- <-
           end;
    match goal with
    | Henv : format_payload u _ = Ok ?env |- _ =>
        exists env; eexists [_; _]; eexists;
        split; [reflexivity | split; [cbn [In]; auto | assumption]]
    end.
Qed.

Lemma confirmation_shows_posted_envelope_witness :
  exists text env,
    In (SendMessage 1 text (Some "HTML") (Some ReplyKeyboardRemove))
      (effects (web_app_data Scenario.update) (Scenario.answering 500))
    /\ In (HttpPost Scenario.url json_headers env)
         (effects (web_app_data Scenario.update) (Scenario.answering 500))
    /\ response_message env = Ok text.
Proof.
  eexists.
  assert (Hin : In (SendMessage 1 _ (Some "HTML") (Some ReplyKeyboardRemove))
                  (effects (web_app_data Scenario.update)
                     (Scenario.answering 500)))
    by (cbn; do 4 right; left; reflexivity).
  destruct (confirmation_shows_posted_envelope Scenario.update
              (Scenario.answering 500) 1 _ (Some ReplyKeyboardRemove) Hin)
    as (env & before & after & Heff & _ & Htext).
  exists env. split; [exact Hin |]. split; [| exact Htext].
  rewrite Heff. apply in_or_app. right. left. reflexivity.
Defined.
